(** * IoTDB MLNode training-task scheduler and UDF configuration holder

    A shallow embedding of

    - [mlnode/iotdb/mlnode/process/task.py]
      ([TrainingTrialObjective], [_BasicTask], [ForecastingTrainingTask]);
    - [udf-py/udf/api/customizer/config/udf_configurations.py]
      ([UDFConfigurations]);

    followed by the properties proved about them.

    Conventions of the embedding.

    - Python dictionaries are [gmap]s.  The two dictionaries the scheduler
      shares by reference (the task configuration and the trial registry)
      live in one [World]; every holder of a reference reads and writes
      that one copy, which is the aliasing of the source.
    - Python [int] is [Z]; a finite Python [float] is the rational it
      denotes ([Qc]); NaN and the infinities are outside the model.
    - Code that can raise runs in a state-and-exception monad [M] over the
      [World].
    - Collaborators that are not part of the two files (the trial executor,
      the model factory, the sampling primitive, the coordinator client) are
      fields of a [Collaborators] record: arbitrary functions that may
      raise and that thread a state [Ext] of their own. *)

From Stdlib Require Import QArith Qcanon.
From stdpp Require Import base gmap strings list pretty countable numbers.

Local Open Scope string_scope.
Local Open Scope list_scope.
Local Open Scope Z_scope.

(** ** Python values and exceptions *)

(** The Python objects that occur as configuration values and dictionary
    keys.  As dictionary keys, values compare as Rocq values: the keys the
    scheduler writes are strings and integers, and Python's identification
    of [1], [1.0] and [True] as keys is not modelled. *)
Inductive PyVal : Type :=
| VNone
| VBool (b : bool)
| VInt (n : Z)
| VFloat (x : Qc)
| VStr (s : string).

#[global] Instance PyVal_eq_dec : EqDecision PyVal.
Proof. solve_decision. Defined.

Definition PyVal_to_sum (v : PyVal) : unit + bool + Z + Qc + string :=
  match v with
  | VNone => inl (inl (inl (inl tt)))
  | VBool b => inl (inl (inl (inr b)))
  | VInt n => inl (inl (inr n))
  | VFloat x => inl (inr x)
  | VStr s => inr s
  end.

Definition PyVal_of_sum (s : unit + bool + Z + Qc + string) : PyVal :=
  match s with
  | inl (inl (inl (inl _))) => VNone
  | inl (inl (inl (inr b))) => VBool b
  | inl (inl (inr n)) => VInt n
  | inl (inr x) => VFloat x
  | inr s => VStr s
  end.

#[global] Instance PyVal_countable : Countable PyVal.
Proof.
  apply (inj_countable' PyVal_to_sum PyVal_of_sum).
  intros []; reflexivity.
Defined.

(** [bool(v)]: Python truthiness, as used by [if self.tuning:]. *)
Definition truthy (v : PyVal) : bool :=
  match v with
  | VNone => false
  | VBool b => b
  | VInt n => negb (bool_decide (n = 0))
  | VFloat x => negb (bool_decide (x = Q2Qc 0))
  | VStr s => negb (bool_decide (s = ""))
  end.

(** [str(n)] for a Python [int]: the decimal numeral, with a leading
    minus sign for negatives. *)
Definition str (n : Z) : string := pretty n.

(** Instances of Python's [Exception]: the ones the two files raise
    themselves, and [OtherError] for whatever a collaborator raises. *)
Inductive Exn : Type :=
| KeyError (key : PyVal)
| AttributeError (attr : string)
| ValueError (msg : string)
| UDFException (msg : string)
| OtherError (cls msg : string).

#[global] Instance Exn_eq_dec : EqDecision Exn.
Proof. solve_decision. Defined.

(** ** A state-and-exception monad

    [M S A] is a computation over a mutable state [S] that returns an [A]
    or raises; the state reached is kept in both cases, as the mutations a
    Python function made before it raised stay made. *)

Definition M (S A : Type) : Type := S -> (Exn + A) * S.

Definition ret {S A} (a : A) : M S A := fun s => (inr a, s).

Definition raise {S A} (e : Exn) : M S A := fun s => (inl e, s).

Definition bind {S A B} (m : M S A) (k : A -> M S B) : M S B :=
  fun s =>
    match m s with
    | (inl e, s') => (inl e, s')
    | (inr a, s') => k a s'
    end.

Definition gets {S A} (f : S -> A) : M S A := fun s => (inr (f s), s).

Definition modify {S} (f : S -> S) : M S unit := fun s => (inr tt, f s).

(** [try: body / except Exception as e: handler e]. *)
Definition try_except {S A} (body : M S A) (handler : Exn -> M S A) : M S A :=
  fun s =>
    match body s with
    | (inl e, s') => handler e s'
    | (inr a, s') => (inr a, s')
    end.

Declare Scope py_scope.
Delimit Scope py_scope with py.
Notation "x <- m ;; k" := (bind m (fun x => k))
  (at level 20, m at level 99, k at level 200) : py_scope.
Notation "' pat <- m ;; k" := (bind m (fun x => match x with pat => k end))
  (at level 20, pat pattern, m at level 99, k at level 200) : py_scope.
Notation "m ;; k" := (bind m (fun _ => k))
  (at level 100, k at level 200, right associativity) : py_scope.
Local Open Scope py_scope.

(** ** UDFConfigurations *)

Module UDFConfigurations.
Section WithType.

(** [udf.api.type.type.Type], the enumeration of UDF data types, is
    declared outside the file; it is a parameter here. *)
Context {Type_ : Type}.

(** The instance state.  The class annotates [_output_data_type: Type]
    without assigning it, so the attribute may be absent ([None]); when
    present it holds Python's [None] ([Some None]) or a type. *)
Record t : Type := Build {
  _output_data_type : option (option Type_)
}.

(** [self._output_data_type] *)
Definition self_output_data_type : M t (option Type_) :=
  o <- gets _output_data_type ;;
  match o with
  | None => raise (AttributeError "_output_data_type")
  | Some v => ret v
  end.

Definition get_output_data_type : M t (option Type_) :=
  self_output_data_type.

Definition check : M t unit :=
  v <- self_output_data_type ;;
  match v with
  | None => raise (UDFException "UDF output_data_type is not set.")
  | Some _ => ret tt
  end.

End WithType.
Arguments t : clear implicits.
End UDFConfigurations.

(** ** The training-task scheduler *)

(** Modelled from the spec: [iotdb.thrift.common.ttypes.TrainingState] is
    declared outside the two files; the spec names the state [FINISHED]
    that the scheduler reports and the state [FAILED] that it never
    reports. *)
Inductive TrainingState : Type := FINISHED | FAILED.

#[global] Instance TrainingState_eq_dec : EqDecision TrainingState.
Proof. solve_decision. Defined.

(** Modelled from the spec: the Search Driver ([optuna]), an external
    collaborator.  A trial-state handle carries an internal sequence
    number; a study evaluates trials one after the other, hands out
    sequence numbers 0, 1, 2, ... in that order, and tracks the best trial
    by minimum loss, the first seen winning a tie. *)
Module optuna.

Record Trial : Type := { _trial_id : Z }.

Record Study : Type := {
  next_trial_id : Z;
  best : option (Trial * Qc)
}.

(** [optuna.create_study(direction='minimize')] *)
Definition create_study : Study :=
  {| next_trial_id := 0; best := None |}.

(** A new trial-state handle for the next evaluation. *)
Definition ask (st : Study) : Trial * Study :=
  ({| _trial_id := next_trial_id st |},
   {| next_trial_id := next_trial_id st + 1; best := best st |}).

(** The best trial once one more evaluation has finished: the new trial
    replaces the best so far only when its loss is strictly smaller. *)
Definition update_best (best : option (Trial * Qc)) (trial : Trial)
    (value : Qc) : option (Trial * Qc) :=
  match best with
  | None => Some (trial, value)
  | Some (b, best_value) =>
      if bool_decide (value < best_value)%Qc
      then Some (trial, value)
      else Some (b, best_value)
  end.

(** Record the loss of a finished evaluation. *)
Definition tell (trial : Trial) (value : Qc) (st : Study) : Study :=
  {| next_trial_id := next_trial_id st;
     best := update_best (best st) trial value |}.

(** The best trial after a sequence of finished evaluations, each given
    by its sequence number and its loss, oldest first. *)
Definition best_after (best : option (Trial * Qc)) (l : list (Z * Qc))
    : option (Trial * Qc) :=
  foldl (fun b kv => update_best b {| _trial_id := kv.1 |} kv.2) best l.

End optuna.

(** [learning_rate] is sampled from the range given by these two float
    literals of the source, [1e-7] and [1e-1], taken at their decimal
    value (the doubles nearest to them differ from it by less than one
    part in 10^15; the properties below only compare a sampled value with
    the bounds that were passed). *)
Definition lr_low : Qc := Q2Qc (1 # 10000000).
Definition lr_high : Qc := Q2Qc (1 # 10).

Section Scheduler.

(** Types of the collaborators' objects: their private state, model
    instances, model configurations, dataset handles, trial executors
    and coordinator-client handles. *)
Context {Ext Model ModelConfig Dataset ForecastingTrainingTrial Client : Type}.

(** A call into a collaborator: it returns or raises, and moves the
    collaborators' state. *)
Definition Call (A : Type) : Type := M Ext A.

Record Collaborators : Type := {
  (** [os.getpid()]: the identifier of the process running the code *)
  getpid : Z;
  (** [client_manager.borrow_config_node_client()] *)
  borrow_config_node_client : Call Client;
  (** [create_forecast_model( **model_configs )] *)
  create_forecast_model : ModelConfig -> Call (Model * ModelConfig);
  (** [trial.suggest_float(name, low, high, log=log)] on the trial-state
      handle [trial] *)
  suggest_float : optuna.Trial -> string -> Qc -> Qc -> bool -> Call Qc;
  (** [ForecastingTrainingTrial(configs, model, model_configs, dataset)],
      where [configs] is the content of the task configuration at the
      time of the call *)
  new_ForecastingTrainingTrial :
    gmap string PyVal -> Model -> ModelConfig -> Dataset ->
    Call ForecastingTrainingTrial;
  (** [trial.start()], where the second argument is the content of the
      task configuration (which the executor refers to) at the time of
      the call *)
  start : ForecastingTrainingTrial -> gmap string PyVal -> Call Qc;
  (** [confignode_client.update_model_state(model_id, state, trial_id)] *)
  update_model_state :
    Client -> PyVal -> TrainingState -> string -> Call unit
}.

Variable C : Collaborators.

(** The contract of the sampling primitive: a value it returns lies
    within the bounds it was asked for. *)
Definition sampling_in_bounds : Prop :=
  forall trial name low high log e v e',
    suggest_float C trial name low high log e = (inr v, e') ->
    (low <= v <= high)%Qc.

(** Collaborators none of whose calls raises, in any state. *)
Definition never_raise : Prop :=
  (forall trial name low high log e,
      exists v e', suggest_float C trial name low high log e = (inr v, e')) /\
  (forall mc e, exists m e', create_forecast_model C mc e = (inr m, e')) /\
  (forall cfg mo mc ds e,
      exists t e', new_ForecastingTrainingTrial C cfg mo mc ds e = (inr t, e')) /\
  (forall t cfg e, exists loss e', start C t cfg e = (inr loss, e')) /\
  (forall cl m st tid e,
      exists e', update_model_state C cl m st tid e = (inr tt, e')).

(** Everything mutable that the scheduler touches. *)
Record World : Type := {
  (** the task configuration dictionary ([task_configs], which
      [TrainingTrialObjective] calls [trial_configs]) *)
  task_configs : gmap string PyVal;
  (** the trial registry: model id -> trial key -> process id *)
  task_trial_map : gmap PyVal (gmap PyVal Z);
  (** the object in [self.study]; [None] while the attribute is unset *)
  study : option optuna.Study;
  (** the collaborators' state *)
  ext : Ext;
  (** the calls made to [update_model_state], oldest first *)
  rpc_log : list (PyVal * TrainingState * string);
  (** the arguments of [logger.warn], oldest first *)
  warn_log : list Exn;
  (** the lines written by [print], oldest first *)
  stdout : list (Z * Qc);
  (** the task configuration handed to each trial executor constructed,
      oldest first *)
  trial_log : list (gmap string PyVal);
  (** the outcome of each call of a trial executor's [start], oldest
      first *)
  start_log : list (Exn + Qc)
}.

Definition set_task_configs (f : gmap string PyVal -> gmap string PyVal)
    (w : World) : World :=
  {| task_configs := f (task_configs w); task_trial_map := task_trial_map w;
     study := study w; ext := ext w; rpc_log := rpc_log w;
     warn_log := warn_log w; stdout := stdout w; trial_log := trial_log w;
     start_log := start_log w |}.

Definition set_task_trial_map
    (f : gmap PyVal (gmap PyVal Z) -> gmap PyVal (gmap PyVal Z))
    (w : World) : World :=
  {| task_configs := task_configs w; task_trial_map := f (task_trial_map w);
     study := study w; ext := ext w; rpc_log := rpc_log w;
     warn_log := warn_log w; stdout := stdout w; trial_log := trial_log w;
     start_log := start_log w |}.

Definition set_study (f : option optuna.Study -> option optuna.Study)
    (w : World) : World :=
  {| task_configs := task_configs w; task_trial_map := task_trial_map w;
     study := f (study w); ext := ext w; rpc_log := rpc_log w;
     warn_log := warn_log w; stdout := stdout w; trial_log := trial_log w;
     start_log := start_log w |}.

Definition set_ext (f : Ext -> Ext) (w : World) : World :=
  {| task_configs := task_configs w; task_trial_map := task_trial_map w;
     study := study w; ext := f (ext w); rpc_log := rpc_log w;
     warn_log := warn_log w; stdout := stdout w; trial_log := trial_log w;
     start_log := start_log w |}.

Definition set_rpc_log
    (f : list (PyVal * TrainingState * string) ->
         list (PyVal * TrainingState * string))
    (w : World) : World :=
  {| task_configs := task_configs w; task_trial_map := task_trial_map w;
     study := study w; ext := ext w; rpc_log := f (rpc_log w);
     warn_log := warn_log w; stdout := stdout w; trial_log := trial_log w;
     start_log := start_log w |}.

Definition set_warn_log (f : list Exn -> list Exn) (w : World) : World :=
  {| task_configs := task_configs w; task_trial_map := task_trial_map w;
     study := study w; ext := ext w; rpc_log := rpc_log w;
     warn_log := f (warn_log w); stdout := stdout w; trial_log := trial_log w;
     start_log := start_log w |}.

Definition set_stdout (f : list (Z * Qc) -> list (Z * Qc)) (w : World) : World :=
  {| task_configs := task_configs w; task_trial_map := task_trial_map w;
     study := study w; ext := ext w; rpc_log := rpc_log w;
     warn_log := warn_log w; stdout := f (stdout w); trial_log := trial_log w;
     start_log := start_log w |}.

Definition set_trial_log
    (f : list (gmap string PyVal) -> list (gmap string PyVal))
    (w : World) : World :=
  {| task_configs := task_configs w; task_trial_map := task_trial_map w;
     study := study w; ext := ext w; rpc_log := rpc_log w;
     warn_log := warn_log w; stdout := stdout w; trial_log := f (trial_log w);
     start_log := start_log w |}.

Definition set_start_log (f : list (Exn + Qc) -> list (Exn + Qc))
    (w : World) : World :=
  {| task_configs := task_configs w; task_trial_map := task_trial_map w;
     study := study w; ext := ext w; rpc_log := rpc_log w;
     warn_log := warn_log w; stdout := stdout w; trial_log := trial_log w;
     start_log := f (start_log w) |}.

(** *** Primitive statements *)

(** Run a collaborator on its own state. *)
Definition call {A} (c : Call A) : M World A :=
  fun w => let '(r, e) := c (ext w) in (r, set_ext (fun _ => e) w).

(** [task_configs[key]] *)
Definition configs_getitem (key : string) : M World PyVal :=
  o <- gets (fun w => task_configs w !! key) ;;
  match o with
  | Some v => ret v
  | None => raise (KeyError (VStr key))
  end.

(** [task_configs[key] = v] *)
Definition configs_setitem (key : string) (v : PyVal) : M World unit :=
  modify (set_task_configs (insert key v)).

(** [task_trial_map[model_id][key] = pid]: the inner dictionary is
    looked up first, then written in place. *)
Definition registry_setitem (model_id key : PyVal) (pid : Z) : M World unit :=
  o <- gets (fun w => task_trial_map w !! model_id) ;;
  match o with
  | Some inner =>
      modify (set_task_trial_map (insert model_id (<[key := pid]> inner)))
  | None => raise (KeyError model_id)
  end.

(** [task_trial_map[model_id][key]], as a reader of the registry sees
    it: [None] when either key is absent. *)
Definition registry (w : World) (model_id key : PyVal) : option Z :=
  task_trial_map w !! model_id ≫= (.!! key).

(** [print(trial_id, loss)] *)
Definition print (trial_id : Z) (loss : Qc) : M World unit :=
  modify (set_stdout (fun l => l ++ [(trial_id, loss)])).

(** [logger.warn(e)] *)
Definition logger_warn (e : Exn) : M World unit :=
  modify (set_warn_log (fun l => l ++ [e])).

(** [ForecastingTrainingTrial(task_configs, model, model_configs,
    dataset)]: the executor is handed the shared task configuration. *)
Definition construct_trial (model : Model) (model_configs : ModelConfig)
    (dataset : Dataset) : M World ForecastingTrainingTrial :=
  cfg <- gets task_configs ;;
  modify (set_trial_log (fun l => l ++ [cfg])) ;;
  call (new_ForecastingTrainingTrial C cfg model model_configs dataset).

(** [trial.start()]: the executor runs on the task configuration as it
    is now; the outcome of the call, a loss or an error, is recorded and
    is the outcome of the statement. *)
Definition trial_start (trial : ForecastingTrainingTrial) : M World Qc :=
  fun w =>
    let '(r, e) := start C trial (task_configs w) (ext w) in
    (r, set_start_log (fun l => l ++ [r]) (set_ext (fun _ => e) w)).

(** [client.update_model_state(model_id, state, trial_id)]: the call is
    recorded when it is made, whether or not it then raises. *)
Definition client_update_model_state (client : Client) (model_id : PyVal)
    (state : TrainingState) (trial_id : string) : M World unit :=
  modify (set_rpc_log (fun l => l ++ [(model_id, state, trial_id)])) ;;
  call (update_model_state C client model_id state trial_id).

(** *** The Search Driver's operations on [self.study] *)

(** [self.study] *)
Definition self_study : M World optuna.Study :=
  o <- gets study ;;
  match o with
  | Some st => ret st
  | None => raise (AttributeError "study")
  end.

Definition study_ask : M World optuna.Trial :=
  st <- self_study ;;
  let '(trial, st') := optuna.ask st in
  modify (set_study (fun _ => Some st')) ;;
  ret trial.

Definition study_tell (trial : optuna.Trial) (value : Qc) : M World unit :=
  st <- self_study ;;
  modify (set_study (fun _ => Some (optuna.tell trial value st))).

(** Modelled from the spec: [study.optimize(objective, n_trials)]
    invokes the objective once per iteration with a new trial-state
    handle, one iteration after the other, for a fixed budget; an error
    of the objective propagates unchanged and ends the run. *)
Fixpoint study_optimize (objective : optuna.Trial -> M World Qc)
    (n_trials : nat) : M World unit :=
  match n_trials with
  | O => ret tt
  | S n =>
      trial <- study_ask ;;
      value <- objective trial ;;
      study_tell trial value ;;
      study_optimize objective n
  end.

(** Modelled from the spec: [study.best_trial], the handle of the trial
    with the minimum loss; with no finished trial there is none to
    return and the access raises. *)
Definition study_best_trial : M World optuna.Trial :=
  st <- self_study ;;
  match optuna.best st with
  | Some (trial, _) => ret trial
  | None => raise (ValueError "No trials are completed yet.")
  end.

(** *** TrainingTrialObjective *)

(** [trial_configs] and [task_trial_map] are references to the two
    shared dictionaries of the [World]; the other two attributes are
    held by value. *)
Record TrainingTrialObjective : Type := {
  objective_model_configs : ModelConfig;
  objective_dataset : Dataset
}.

Definition TrainingTrialObjective_init (model_configs : ModelConfig)
    (dataset : Dataset) : TrainingTrialObjective :=
  {| objective_model_configs := model_configs;
     objective_dataset := dataset |}.

(** [__call__]: one evaluation, on the trial-state handle [trial]. *)
Definition TrainingTrialObjective_call (self : TrainingTrialObjective)
    (trial : optuna.Trial) : M World Qc :=
  lr <- call (suggest_float C trial "lr" lr_low lr_high true) ;;
  configs_setitem "learning_rate" (VFloat lr) ;;
  configs_setitem "trial_id" (VStr ("tid_" +:+ str (optuna._trial_id trial))) ;;
  ' (model, model_cfg) <-
    call (create_forecast_model C (objective_model_configs self)) ;;
  let pid := getpid C in
  model_id <- configs_getitem "model_id" ;;
  registry_setitem model_id (VInt (optuna._trial_id trial)) pid ;;
  _trial <- construct_trial model (objective_model_configs self)
              (objective_dataset self) ;;
  loss <- trial_start _trial ;;
  print (optuna._trial_id trial) loss ;;
  ret loss.

(** *** ForecastingTrainingTask *)

(** The attributes of a task object; [task_configs] and [task_trial_map]
    are references to the shared dictionaries of the [World], and
    [study] is kept there too.  [default_trial_id] and [trial] are set
    by one branch of the constructor only. *)
Record ForecastingTrainingTask : Type := {
  model_configs : ModelConfig;
  model : Model;
  dataset : Dataset;
  model_id : PyVal;
  tuning : PyVal;
  confignode_client : Client;
  default_trial_id : option string;
  trial : option ForecastingTrainingTrial
}.

(** [__init__]: [_BasicTask.__init__] stores the five arguments, two of
    them the shared dictionaries; the rest is the subclass's own. *)
Definition ForecastingTrainingTask_init (model_configs : ModelConfig)
    (model : Model) (dataset : Dataset) : M World ForecastingTrainingTask :=
  model_id <- configs_getitem "model_id" ;;
  tuning <- configs_getitem "tuning" ;;
  confignode_client <- call (borrow_config_node_client C) ;;
  if truthy tuning then
    modify (set_study (fun _ => Some optuna.create_study)) ;;
    ret {| model_configs := model_configs; model := model;
           dataset := dataset; model_id := model_id; tuning := tuning;
           confignode_client := confignode_client;
           default_trial_id := None; trial := None |}
  else
    let default_trial_id := "tid_0" in
    configs_setitem "trial_id" (VStr default_trial_id) ;;
    trial <- construct_trial model model_configs dataset ;;
    registry_setitem model_id (VStr default_trial_id) (getpid C) ;;
    ret {| model_configs := model_configs; model := model;
           dataset := dataset; model_id := model_id; tuning := tuning;
           confignode_client := confignode_client;
           default_trial_id := Some default_trial_id;
           trial := Some trial |}.

(** [self.trial] and [self.default_trial_id] *)
Definition self_trial (self : ForecastingTrainingTask)
    : M World ForecastingTrainingTrial :=
  match trial self with
  | Some t => ret t
  | None => raise (AttributeError "trial")
  end.

Definition self_default_trial_id (self : ForecastingTrainingTask)
    : M World string :=
  match default_trial_id self with
  | Some t => ret t
  | None => raise (AttributeError "default_trial_id")
  end.

(** The body of the [try] statement of [__call__]. *)
Definition ForecastingTrainingTask_call_body (self : ForecastingTrainingTask)
    : M World unit :=
  if truthy (tuning self) then
    self_study ;;
    study_optimize
      (TrainingTrialObjective_call
         (TrainingTrialObjective_init (model_configs self) (dataset self)))
      20 ;;
    best_trial <- study_best_trial ;;
    let best_trial_id := "tid_" +:+ str (optuna._trial_id best_trial) in
    client_update_model_state (confignode_client self) (model_id self)
      FINISHED best_trial_id
  else
    trial <- self_trial self ;;
    trial_start trial ;;
    default_trial_id <- self_default_trial_id self ;;
    client_update_model_state (confignode_client self) (model_id self)
      FINISHED default_trial_id.

(** [__call__]: the body, under [except Exception as e: logger.warn(e);
    raise e]. *)
Definition ForecastingTrainingTask_call (self : ForecastingTrainingTask)
    : M World unit :=
  try_except (ForecastingTrainingTask_call_body self)
    (fun e => logger_warn e ;; raise e).

(** The registry [w'] extends the registry [w]: the same models have a
    dictionary, and no entry of [w] is missing from [w']. *)
Definition registry_extends (w w' : World) : Prop :=
  (forall m, is_Some (task_trial_map w' !! m) <-> is_Some (task_trial_map w !! m)) /\
  (forall m k, is_Some (registry w m k) -> is_Some (registry w' m k)).

End Scheduler.

Arguments Collaborators : clear implicits.
Arguments World : clear implicits.
Arguments ForecastingTrainingTask : clear implicits.

(** ** A concrete scenario

    Collaborators that can be run: the executors' [start] calls follow a
    script of outcomes (a loss to return or an error to raise), every
    other collaborator succeeds, and the sampling primitive returns the
    lower bound of a non-empty range. *)
Module Scenario.

Definition pid : Z := 4242.

Definition scripted_start : Call (Ext := list (Exn + Qc)) Qc :=
  fun script =>
    match script with
    | inr loss :: rest => (inr loss, rest)
    | inl e :: rest => (inl e, rest)
    | [] => (inl (OtherError "RuntimeError" "no outcome scripted"), [])
    end.

Definition collaborators
    : Collaborators (list (Exn + Qc)) unit unit unit unit unit :=
  {| getpid := pid;
     borrow_config_node_client := ret tt;
     create_forecast_model := fun mc => ret (tt, mc);
     suggest_float := fun _ _ low high _ =>
       if bool_decide (low <= high)%Qc then ret low
       else raise (ValueError "low is greater than high");
     new_ForecastingTrainingTrial := fun _ _ _ _ => ret tt;
     start := fun _ _ => scripted_start;
     update_model_state := fun _ _ _ _ => ret tt |}.

(** A task configuration for model ["m1"], a registry prepared for that
    model, and nothing logged yet. *)
Definition world (tuning : bool) (script : list (Exn + Qc))
    : World (list (Exn + Qc)) :=
  {| task_configs := {[ "model_id" := VStr "m1"; "tuning" := VBool tuning ]};
     task_trial_map := {[ VStr "m1" := ∅ ]};
     study := None;
     ext := script;
     rpc_log := [];
     warn_log := [];
     stdout := [];
     trial_log := [];
     start_log := [] |}.

(** The orchestrator object the constructor returns in this scenario. *)
Definition task (tuning : bool)
    : ForecastingTrainingTask unit unit unit unit unit :=
  {| model_configs := tt; model := tt; dataset := tt;
     model_id := VStr "m1"; tuning := VBool tuning;
     confignode_client := tt;
     default_trial_id := if tuning then None else Some "tid_0";
     trial := if tuning then None else Some tt |}.

(** The world once the orchestrator is constructed, and once the
    constructed orchestrator has been invoked. *)
Definition constructed (w : World (list (Exn + Qc)))
    : World (list (Exn + Qc)) :=
  (ForecastingTrainingTask_init collaborators tt tt tt w).2.

Definition invoked (tuning : bool) (w : World (list (Exn + Qc)))
    : World (list (Exn + Qc)) :=
  (ForecastingTrainingTask_call collaborators (task tuning) w).2.

Definition q (n : Z) (d : positive) : Qc := Q2Qc (n # d).

(** Twenty losses with the minimum 3/10 at index 1 and again at index 5. *)
Definition losses : list Qc :=
  [q 5 10; q 3 10; q 9 10; q 7 10; q 4 10; q 3 10; q 8 10; q 6 10; q 5 10;
   q 9 10; q 1 1; q 1 1; q 2 1; q 7 10; q 6 10; q 5 10; q 4 10; q 1 1;
   q 3 1; q 2 1].

Definition boom : Exn := OtherError "RuntimeError" "training diverged".

(** Collaborators none of whose calls raises: every executor returns the
    loss 1/2, and the sampling primitive returns the lower bound. *)
Definition steady
    : Collaborators (list (Exn + Qc)) unit unit unit unit unit :=
  {| getpid := pid;
     borrow_config_node_client := ret tt;
     create_forecast_model := fun mc => ret (tt, mc);
     suggest_float := fun _ _ low _ _ => ret low;
     new_ForecastingTrainingTrial := fun _ _ _ _ => ret tt;
     start := fun _ _ => ret (q 1 2);
     update_model_state := fun _ _ _ _ => ret tt |}.

(** The world of [world], with a registry that has no dictionary for the
    model. *)
Definition world_unregistered (tuning : bool) (script : list (Exn + Qc))
    : World (list (Exn + Qc)) :=
  {| task_configs := {[ "model_id" := VStr "m1"; "tuning" := VBool tuning ]};
     task_trial_map := ∅;
     study := None;
     ext := script;
     rpc_log := [];
     warn_log := [];
     stdout := [];
     trial_log := [];
     start_log := [] |}.

(** The world of [world], with a task configuration that lacks [tuning]. *)
Definition world_untuned : World (list (Exn + Qc)) :=
  {| task_configs := {[ "model_id" := VStr "m1" ]};
     task_trial_map := {[ VStr "m1" := ∅ ]};
     study := None;
     ext := [];
     rpc_log := [];
     warn_log := [];
     stdout := [];
     trial_log := [];
     start_log := [] |}.

End Scenario.

(** * Properties *)

(** ** The best trial of a study *)

(** The trial a study reports as best after a sequence of evaluations is
    either the best it had before, when no new loss is smaller, or the
    first of the new evaluations that has the minimum loss. *)
Lemma best_after_first_min (l : list (Z * Qc)) :
  forall b0 t v,
    optuna.best_after b0 l = Some (t, v) ->
    (b0 = Some (t, v) /\ forall j kv, l !! j = Some kv -> (v <= kv.2)%Qc) \/
    (exists i : nat,
        l !! i = Some (optuna._trial_id t, v) /\
        (forall b bv, b0 = Some (b, bv) -> (v < bv)%Qc) /\
        (forall j kv, l !! j = Some kv -> (v <= kv.2)%Qc) /\
        (forall j kv, (j < i)%nat -> l !! j = Some kv -> (v < kv.2)%Qc)).
Proof.
  induction l as [|[k x] l IH]; intros b0 t v H; simpl in H.
  - left. split; [done|]. intros j kv Hj. by rewrite lookup_nil in Hj.
  - apply IH in H as [[Hb Hall]|(i & Hi & Hlt & Hall & Hfirst)].
    + destruct b0 as [[b bv]|]; simpl in Hb.
      * case_bool_decide as Hcmp; simplify_eq.
        -- right. exists 0%nat. split_and!; simpl.
           ++ done.
           ++ intros ? ? [= <- <-]. done.
           ++ intros [|j] kv Hj; simpl in Hj; [|by eauto].
              simplify_eq. simpl. apply Qcle_refl.
           ++ intros j kv Hj. lia.
        -- left. split; [done|]. intros [|j] kv Hj; simpl in Hj; [|by eauto].
           simplify_eq. simpl. by apply Qcnot_lt_le.
      * simplify_eq. right. exists 0%nat. split_and!; simpl.
        -- done.
        -- intros ? ? [=].
        -- intros [|j] kv Hj; simpl in Hj; [|by eauto].
           simplify_eq. simpl. apply Qcle_refl.
        -- intros j kv Hj. lia.
    + right. exists (S i). simpl.
      assert (Hx : (v < x)%Qc).
      { destruct b0 as [[b bv]|]; simpl in Hlt.
        - case_bool_decide as Hcmp.
          + by eapply Hlt.
          + eapply Qclt_le_trans; [by eapply Hlt|]. by apply Qcnot_lt_le.
        - by eapply Hlt. }
      split_and!.
      * done.
      * intros b bv ->. simpl in Hlt. case_bool_decide as Hcmp.
        -- eapply Qclt_trans; [apply Hx | done].
        -- by eapply Hlt.
      * intros [|j] kv Hj; simpl in Hj; [|by eauto].
        simplify_eq. simpl. by apply Qclt_le_weak.
      * intros [|j] kv Hlt' Hj; simpl in Hj.
        -- by simplify_eq.
        -- apply (Hfirst j); [lia|done].
Qed.

(** A study has a best trial as soon as one evaluation has finished. *)
Lemma best_after_None (l : list (Z * Qc)) :
  forall b0, optuna.best_after b0 l = None -> b0 = None /\ l = [].
Proof.
  induction l as [|[k x] l IH]; intros b0 H; simpl in H; [done|].
  apply IH in H as [H _]. destruct b0 as [[b bv]|]; simpl in H; [|done].
  by case_bool_decide.
Qed.

(** ** Stepping through monadic code *)

Lemma bind_inv {S A B} (m : M S A) (k : A -> M S B) s r s' :
  bind m k s = (r, s') ->
  (exists e, m s = (inl e, s') /\ r = inl e) \/
  (exists a s1, m s = (inr a, s1) /\ k a s1 = (r, s')).
Proof.
  unfold bind. destruct (m s) as [[e|a] s1]; intros H.
  - left. exists e. by inversion H.
  - right. by exists a, s1.
Qed.

Lemma try_except_inv {S A} (body : M S A) (handler : Exn -> M S A) s r s' :
  try_except body handler s = (r, s') ->
  (exists e s1, body s = (inl e, s1) /\ handler e s1 = (r, s')) \/
  (exists a, body s = (inr a, s') /\ r = inr a).
Proof.
  unfold try_except. destruct (body s) as [[e|a] s1]; intros H.
  - left. by exists e, s1.
  - right. exists a. by inversion H.
Qed.

Section SchedulerProperties.

Context {Ext Model ModelConfig Dataset ForecastingTrainingTrial Client : Type}.
Variable C :
  Collaborators Ext Model ModelConfig Dataset ForecastingTrainingTrial Client.

Local Abbreviation World := (World Ext).
Local Abbreviation Task := (ForecastingTrainingTask Model ModelConfig Dataset
                    ForecastingTrainingTrial Client).

Lemma call_inv {A} (c : Call A) (w : World) r w' :
  call c w = (r, w') ->
  exists e, c (ext w) = (r, e) /\ w' = set_ext (fun _ => e) w.
Proof.
  unfold call. destruct (c (ext w)) as [r0 e]. intros H. inversion H. eauto.
Qed.

Lemma configs_getitem_inv key (w : World) r w' :
  configs_getitem key w = (r, w') ->
  w' = w /\
  match r with
  | inr v => task_configs w !! key = Some v
  | inl e => task_configs w !! key = None /\ e = KeyError (VStr key)
  end.
Proof.
  unfold configs_getitem, bind, gets, ret, raise.
  destruct (task_configs w !! key); intros H; inversion H; auto.
Qed.

Lemma registry_setitem_inv m k p (w : World) r w' :
  registry_setitem m k p w = (r, w') ->
  match r with
  | inr _ => exists inner, task_trial_map w !! m = Some inner /\
               w' = set_task_trial_map (insert m (<[k := p]> inner)) w
  | inl e => task_trial_map w !! m = None /\ e = KeyError m /\ w' = w
  end.
Proof.
  unfold registry_setitem, bind, gets, modify, raise.
  destruct (task_trial_map w !! m); intros H; inversion H; eauto.
Qed.

Lemma construct_trial_inv mo mc ds (w : World) r w' :
  construct_trial C mo mc ds w = (r, w') ->
  exists e,
    new_ForecastingTrainingTrial C (task_configs w) mo mc ds (ext w) = (r, e) /\
    w' = set_ext (fun _ => e) (set_trial_log (fun l => l ++ [task_configs w]) w).
Proof.
  unfold construct_trial, bind, gets, modify, call. simpl.
  destruct (new_ForecastingTrainingTrial _ _ _ _ _ _) as [r0 e].
  intros H; inversion H; eauto.
Qed.

Lemma trial_start_inv t (w : World) r w' :
  trial_start C t w = (r, w') ->
  exists e,
    start C t (task_configs w) (ext w) = (r, e) /\
    w' = set_start_log (fun l => l ++ [r]) (set_ext (fun _ => e) w).
Proof.
  unfold trial_start. destruct (start _ _ _ _) as [r0 e].
  intros H; inversion H; eauto.
Qed.

Lemma client_update_model_state_inv cl m st tid (w : World) r w' :
  client_update_model_state C cl m st tid w = (r, w') ->
  exists e,
    update_model_state C cl m st tid (ext w) = (r, e) /\
    w' = set_ext (fun _ => e)
           (set_rpc_log (fun l => l ++ [(m, st, tid)]) w).
Proof.
  unfold client_update_model_state, bind, modify, call. simpl.
  destruct (update_model_state _ _ _ _ _ _) as [r0 e].
  intros H; inversion H; eauto.
Qed.

Lemma configs_setitem_inv key v (w : World) r w' :
  configs_setitem key v w = (r, w') ->
  r = inr tt /\ w' = set_task_configs (insert key v) w.
Proof. intros H; inversion H; auto. Qed.

Lemma print_inv k l (w : World) r w' :
  print k l w = (r, w') ->
  r = inr tt /\ w' = set_stdout (fun o => o ++ [(k, l)]) w.
Proof. intros H; inversion H; auto. Qed.

Lemma logger_warn_inv e (w : World) r w' :
  logger_warn e w = (r, w') ->
  r = inr tt /\ w' = set_warn_log (fun o => o ++ [e]) w.
Proof. intros H; inversion H; auto. Qed.

Lemma self_study_inv (w : World) r w' :
  self_study w = (r, w') ->
  w' = w /\
  match r with
  | inr st => study w = Some st
  | inl e => study w = None /\ e = AttributeError "study"
  end.
Proof.
  unfold self_study, bind, gets, ret, raise.
  destruct (study w); intros H; inversion H; auto.
Qed.

(** Symbolic execution of a run [H : prog w = (r, w')]: split every
    sequencing step and replace every primitive by its effect. *)
Ltac exec1 :=
  match goal with
  | H : bind _ _ _ = _ |- _ =>
      apply bind_inv in H as [(? & ? & ?)|(? & ? & ? & ?)]
  | H : ret _ _ = _ |- _ => unfold ret in H
  | H : raise _ _ = _ |- _ => unfold raise in H
  | H : modify _ _ = _ |- _ => unfold modify in H
  | H : gets _ _ = _ |- _ => unfold gets in H
  | H : call _ _ = _ |- _ => apply call_inv in H as (? & ? & ?)
  | H : configs_getitem _ _ = _ |- _ =>
      apply configs_getitem_inv in H as [? ?]
  | H : configs_setitem _ _ _ = _ |- _ =>
      apply configs_setitem_inv in H as [? ?]
  | H : registry_setitem _ _ _ _ = _ |- _ =>
      apply registry_setitem_inv in H
  | H : construct_trial _ _ _ _ _ = _ |- _ =>
      apply construct_trial_inv in H as (? & ? & ?)
  | H : trial_start _ _ _ = _ |- _ =>
      apply trial_start_inv in H as (? & ? & ?)
  | H : client_update_model_state _ _ _ _ _ _ = _ |- _ =>
      apply client_update_model_state_inv in H as (? & ? & ?)
  | H : print _ _ _ = _ |- _ => apply print_inv in H as [? ?]
  | H : logger_warn _ _ = _ |- _ => apply logger_warn_inv in H as [? ?]
  | H : self_study _ = _ |- _ => apply self_study_inv in H as [? ?]
  | H : self_trial _ _ = _ |- _ => unfold self_trial in H
  | H : self_default_trial_id _ _ = _ |- _ =>
      unfold self_default_trial_id in H
  | H : study_best_trial _ = _ |- _ => unfold study_best_trial in H
  | H : (if ?b then _ else _) _ = _ |- _ => destruct b eqn:?
  | H : (match ?o with Some _ => _ | None => _ end) _ = _ |- _ =>
      destruct o eqn:?
  | H : (let (_, _) := ?x in _) _ = _ |- _ => destruct x
  | H : match ?r with inl _ => _ | inr _ => _ end |- _ => destruct r
  | x : unit |- _ => destruct x
  | H : exists _, _ |- _ => destruct H
  | H : _ /\ _ |- _ => destruct H
  end.

Ltac exec := repeat (exec1; simplify_eq/=).

(** The same, leaving the goal as it is written. *)
Ltac exec_hyps := repeat (exec1; simplify_eq; simpl in * |-).

(** *** One evaluation of the Trial Objective *)

Lemma objective_frame self trial (w : World) r w' :
  TrainingTrialObjective_call C self trial w = (r, w') ->
  study w' = study w /\ rpc_log w' = rpc_log w /\ warn_log w' = warn_log w.
Proof. unfold TrainingTrialObjective_call. intros H. exec; auto. Qed.

Lemma objective_start_log self trial (w : World) r w' :
  TrainingTrialObjective_call C self trial w = (r, w') ->
  exists sl, start_log w' = start_log w ++ sl /\
             forall e, inl e ∈ sl -> r = inl e.
Proof.
  unfold TrainingTrialObjective_call. intros H. exec;
    try (exists []; rewrite app_nil_r; split; [done|];
         intros ? Hin; by apply elem_of_nil in Hin);
    (eexists [_]; split; [done|]; intros ? Hin;
     apply list_elem_of_singleton in Hin; by simplify_eq).
Qed.

(** Whatever the outcome of an evaluation, a registry entry it leaves
    behind was there before or holds the process identifier. *)
Lemma objective_registry self trial (w : World) r w' :
  TrainingTrialObjective_call C self trial w = (r, w') ->
  forall m k p, registry w' m k = Some p ->
                p = getpid C \/ registry w m k = Some p.
Proof.
  unfold TrainingTrialObjective_call. intros H m k p. exec; auto;
    unfold registry; simpl;
    match goal with
    | H : task_trial_map w !! ?mid = Some ?inner |- _ =>
        destruct (decide (mid = m)) as [->|];
        [ rewrite lookup_insert_eq, H; simpl;
          destruct (decide (VInt (optuna._trial_id trial) = k)) as [<-|];
          [ rewrite lookup_insert_eq; intros [= <-]; by left
          | rewrite lookup_insert_ne by done; by right ]
        | rewrite lookup_insert_ne by done; by right ]
    end.
Qed.

(** A successful evaluation, spelled out. *)
Lemma objective_ok self trial (w : World) loss w' :
  TrainingTrialObjective_call C self trial w = (inr loss, w') ->
  exists lr mid inner,
    task_configs w !! "model_id" = Some mid /\
    task_trial_map w !! mid = Some inner /\
    task_configs w' =
      <["trial_id" := VStr ("tid_" +:+ str (optuna._trial_id trial))]>
        (<["learning_rate" := VFloat lr]> (task_configs w)) /\
    task_trial_map w' =
      <[mid := <[VInt (optuna._trial_id trial) := getpid C]> inner]>
        (task_trial_map w) /\
    stdout w' = stdout w ++ [(optuna._trial_id trial, loss)] /\
    trial_log w' = trial_log w ++ [task_configs w'] /\
    start_log w' = start_log w ++ [inr loss].
Proof.
  unfold TrainingTrialObjective_call. intros H. exec.
  match goal with
  | H : <[_ := _]> (<[_ := VFloat ?lr]> _) !! "model_id" = Some ?mid,
    H' : task_trial_map w !! ?mid = Some ?inner |- _ =>
      exists lr, mid, inner;
      rewrite !lookup_insert_ne in H by done
  end.
  repeat split; done.
Qed.

(** *** A run of the Search Driver over the Trial Objective *)

Abbreviation objective self := (TrainingTrialObjective_call C self).

(** Properties of a run whatever its outcome. *)
Lemma study_optimize_any self n (w : World) r w' :
  study_optimize (objective self) n w = (r, w') ->
  rpc_log w' = rpc_log w /\ warn_log w' = warn_log w /\
  (exists sl, start_log w' = start_log w ++ sl /\
              forall e, inl e ∈ sl -> r = inl e) /\
  (forall m k p, registry w' m k = Some p ->
                 p = getpid C \/ registry w m k = Some p).
Proof.
  revert w. induction n as [|n IH]; intros w H; simpl in H.
  - exec. split_and!; auto. exists []. rewrite app_nil_r. split; [done|].
    intros e He. by apply elem_of_nil in He.
  - unfold study_ask, study_tell in H. exec;
      try match goal with
        | H : TrainingTrialObjective_call _ _ _ _ = _ |- _ =>
            pose proof (objective_frame _ _ _ _ _ H) as (_ & Hr & Hw);
            pose proof (objective_start_log _ _ _ _ _ H) as (sl & Hs & Hsl);
            pose proof (objective_registry _ _ _ _ _ H) as Hreg
        end;
      try match goal with
        | H : study_optimize _ _ _ = _ |- _ =>
            apply IH in H as (Hr' & Hw' & (sl' & Hs' & Hsl') & Hreg')
        end;
      unfold registry in *; simpl in *.
    + split_and!; auto. exists []. rewrite app_nil_r. split; [done|].
      intros e He. by apply elem_of_nil in He.
    + split_and!; auto. exists sl. split; [done|].
      intros e He. apply Hsl in He. by simplify_eq.
    + split_and!; auto. exists sl. split; [done|].
      intros e He. apply Hsl in He. by simplify_eq.
    + split_and!.
      * congruence.
      * congruence.
      * exists (sl ++ sl'). rewrite Hs', Hs, app_assoc. split; [done|].
        intros e He. apply elem_of_app in He as [He|He]; [|by auto].
        by apply Hsl in He.
      * intros m k p Hp. apply Hreg' in Hp as [?|Hp]; [by left|].
        by apply Hreg in Hp.
Qed.

Lemma seqZ_S (m : Z) (n : nat) :
  seqZ m (Z.of_nat (S n)) = m :: seqZ (m + 1) (Z.of_nat n).
Proof.
  rewrite seqZ_cons by lia. f_equal. f_equal; lia.
Qed.

(** A run in which every evaluation succeeds, spelled out. *)
Lemma study_optimize_ok self n : forall (w : World) w' st mid,
  study w = Some st ->
  task_configs w !! "model_id" = Some mid ->
  study_optimize (objective self) n w = (inr tt, w') ->
  let n0 := optuna.next_trial_id st in
  exists losses cfgs,
    length losses = n /\
    stdout w' = stdout w ++ zip (seqZ n0 (Z.of_nat n)) losses /\
    start_log w' = start_log w ++ (inr <$> losses) /\
    study w' = Some {| optuna.next_trial_id := n0 + Z.of_nat n;
                       optuna.best :=
                         optuna.best_after (optuna.best st)
                           (zip (seqZ n0 (Z.of_nat n)) losses) |} /\
    trial_log w' = trial_log w ++ cfgs /\
    (fun cfg : gmap string PyVal => cfg !! "trial_id") <$> cfgs =
      (fun k => Some (VStr ("tid_" +:+ str k))) <$> seqZ n0 (Z.of_nat n) /\
    task_configs w' !! "model_id" = Some mid /\
    (forall k, n0 <= k < n0 + Z.of_nat n -> registry w' mid (VInt k) = Some (getpid C)) /\
    (forall m k', (m <> mid \/ forall k, n0 <= k < n0 + Z.of_nat n -> k' <> VInt k) ->
                  registry w' m k' = registry w m k').
Proof.
  induction n as [|n IH]; intros w w' st mid Hst Hmid H n0; simpl in H.
  - exec. exists [], []. simpl. rewrite !app_nil_r.
    split_and!; try done.
    + rewrite Hst. f_equal. subst n0. destruct st; simpl. f_equal. lia.
    + intros k ?. lia.
  - unfold study_ask, study_tell in H. exec.
    match goal with
    | H : TrainingTrialObjective_call _ _ _ _ = _ |- _ =>
        pose proof (objective_frame _ _ _ _ _ H) as (Hstudy & _ & _);
        apply objective_ok in H
          as (lr & mid' & inner & Hmid' & Hinner & Hcfg & Hreg & Hout & Htl & Hsl)
    end.
    simpl in *. simplify_eq.
    match goal with
    | H : study_optimize _ _ _ = _ |- _ =>
        eapply (IH _ _ _ mid) in H
          as (losses & cfgs & Hlen & Hout' & Hsl' & Hst' & Htl' & Hids & Hmid''
              & Hin & Hother); [| reflexivity | ]
    end.
    2:{ simpl. rewrite Hcfg. by rewrite !lookup_insert_ne. }
    simpl in *.
    match goal with
    | |- context [stdout w ++ zip _ _] =>
        exists (x1 :: losses), (task_configs x2 :: cfgs)
    end.
    rewrite seqZ_S. simpl.
    split_and!.
    + by rewrite Hlen.
    + by rewrite Hout', Hout, <- app_assoc.
    + by rewrite Hsl', Hsl, <- app_assoc.
    + rewrite Hst'. do 2 f_equal. lia.
    + by rewrite Htl', Htl, <- app_assoc.
    + f_equal; [|exact Hids]. rewrite Hcfg. by rewrite lookup_insert_eq.
    + done.
    + intros k Hk. destruct (decide (k = n0)) as [->|Hne].
      * rewrite Hother.
        -- unfold registry. simpl. rewrite Hreg, lookup_insert_eq. simpl.
           by rewrite lookup_insert_eq.
        -- right. intros k ? [= ?]. subst n0. lia.
      * apply Hin. subst n0. lia.
    + intros m k' Hmk. rewrite Hother.
      * unfold registry. simpl. rewrite Hreg.
        destruct (decide (mid = m)) as [<-|Hm].
        -- rewrite lookup_insert_eq, Hinner. simpl.
           rewrite lookup_insert_ne; [done|].
           destruct Hmk as [?|Hk]; [done|]. intros <-.
           apply (Hk n0); [subst n0; lia | done].
        -- by rewrite lookup_insert_ne.
      * destruct Hmk as [?|Hk]; [by left|]. right.
        intros k ?. apply Hk. subst n0. lia.
Qed.

Lemma study_optimize_S (objective : optuna.Trial -> M World Qc) n :
  study_optimize objective (S n) =
    (trial <- study_ask ;;
     value <- objective trial ;;
     study_tell trial value ;;
     study_optimize objective n)%py.
Proof. reflexivity. Qed.

#[local] Arguments study_optimize : simpl never.

(** *** Construction of the orchestrator *)

Lemma init_frame mc mo ds (w : World) r w1 :
  ForecastingTrainingTask_init C mc mo ds w = (r, w1) ->
  rpc_log w1 = rpc_log w /\ warn_log w1 = warn_log w /\
  start_log w1 = start_log w /\ stdout w1 = stdout w.
Proof. unfold ForecastingTrainingTask_init. intros H. exec; auto. Qed.

Lemma init_tuning mc mo ds (w : World) self w1 :
  ForecastingTrainingTask_init C mc mo ds w = (inr self, w1) ->
  truthy (tuning self) = true ->
  task_configs w !! "model_id" = Some (model_id self) /\
  task_configs w !! "tuning" = Some (tuning self) /\
  model_configs self = mc /\ dataset self = ds /\
  study w1 = Some optuna.create_study /\
  task_configs w1 = task_configs w /\
  task_trial_map w1 = task_trial_map w /\
  trial_log w1 = trial_log w.
Proof.
  unfold ForecastingTrainingTask_init. intros H Ht. exec; [done|].
  simpl in Ht. congruence.
Qed.

Lemma init_direct mc mo ds (w : World) self w1 :
  ForecastingTrainingTask_init C mc mo ds w = (inr self, w1) ->
  truthy (tuning self) = false ->
  exists inner,
    task_configs w !! "model_id" = Some (model_id self) /\
    task_configs w !! "tuning" = Some (tuning self) /\
    default_trial_id self = Some "tid_0" /\
    is_Some (trial self) /\
    task_trial_map w !! model_id self = Some inner /\
    task_configs w1 = <["trial_id" := VStr "tid_0"]> (task_configs w) /\
    task_trial_map w1 =
      <[model_id self := <[VStr "tid_0" := getpid C]> inner]>
        (task_trial_map w) /\
    trial_log w1 = trial_log w ++ [task_configs w1] /\
    study w1 = study w.
Proof.
  unfold ForecastingTrainingTask_init. intros H Ht. exec.
  { simpl in Ht. congruence. }
  eexists. split_and!; eauto.
Qed.

(** *** The body of the invocation *)

(** Properties of the [try] body whatever its outcome: it writes no
    warning; an error raised by an executor's [start] is the outcome
    and leaves the coordinator uncalled; the coordinator is called at
    most once, and only with [FINISHED]. *)
Lemma call_body_any self (w : World) r w' :
  ForecastingTrainingTask_call_body C self w = (r, w') ->
  warn_log w' = warn_log w /\
  (exists sl, start_log w' = start_log w ++ sl /\
              forall e, inl e ∈ sl -> r = inl e /\ rpc_log w' = rpc_log w) /\
  (rpc_log w' = rpc_log w \/
   exists tid, rpc_log w' = rpc_log w ++ [(model_id self, FINISHED, tid)]).
Proof.
  unfold ForecastingTrainingTask_call_body. intros H.
  exec;
    try match goal with
      | H : study_optimize _ _ _ = _ |- _ =>
          apply study_optimize_any in H as (Hr & Hw & (sl & Hs & Hsl) & _)
      end; simpl in *.
  all: split_and!; [ congruence | | ].
  all: try first
    [ exists []; rewrite app_nil_r; split; [congruence|];
      intros ? Hin; by apply elem_of_nil in Hin
    | eexists [_]; split; [done|]; intros ? Hin;
      apply list_elem_of_singleton in Hin; simplify_eq; split; congruence
    | exists sl; split; [congruence|]; intros ? Hin;
      apply Hsl in Hin; simplify_eq; split; congruence ].
  all: first [ left; congruence
             | right; eexists; rewrite ?Hr; reflexivity ].
Qed.

(** In direct mode the body writes neither shared dictionary. *)
Lemma call_body_direct_frame self (w : World) r w' :
  truthy (tuning self) = false ->
  ForecastingTrainingTask_call_body C self w = (r, w') ->
  task_configs w' = task_configs w /\ task_trial_map w' = task_trial_map w.
Proof.
  unfold ForecastingTrainingTask_call_body. intros Ht H. rewrite Ht in H.
  exec; auto.
Qed.

(** *** The invocation: the body under its exception handler *)

Lemma task_call_inv self (w : World) r w' :
  ForecastingTrainingTask_call C self w = (r, w') ->
  (exists e w1,
      ForecastingTrainingTask_call_body C self w = (inl e, w1) /\
      r = inl e /\ w' = set_warn_log (fun l => l ++ [e]) w1) \/
  (ForecastingTrainingTask_call_body C self w = (inr tt, w') /\ r = inr tt).
Proof.
  unfold ForecastingTrainingTask_call. intros H.
  apply try_except_inv in H as [(e & w1 & Hb & H)|([] & Hb & ->)].
  - left. exists e, w1. exec. auto.
  - by right.
Qed.

Lemma tid_inj : Inj (=) (=) (fun k : Z => "tid_" +:+ str k).
Proof.
  intros j k H. simpl in H. simplify_eq. by apply (inj pretty).
Qed.

(** *** Runs that complete

    With collaborators that never raise, and a registry that has an entry
    for the task's model, nothing terminates the Search Driver early: the
    run of 20 evaluations and the invocation return normally. *)

Lemma objective_succeeds self trial (w : World) mid inner :
  never_raise C ->
  task_configs w !! "model_id" = Some mid ->
  task_trial_map w !! mid = Some inner ->
  exists loss w', TrainingTrialObjective_call C self trial w = (inr loss, w').
Proof.
  intros (Hsample & Hcreate & Hnew & Hstart & _) Hmid Hinner.
  unfold TrainingTrialObjective_call, construct_trial, trial_start,
    registry_setitem, configs_getitem, configs_setitem, print,
    bind, call, gets, modify, ret.
  destruct (Hsample trial "lr" lr_low lr_high true (ext w)) as (lr & e1 & ->).
  simpl.
  destruct (Hcreate (objective_model_configs self) e1) as ([mo mc] & e2 & ->).
  simpl. rewrite !lookup_insert_ne by done. rewrite Hmid. simpl.
  rewrite Hinner. simpl.
  match goal with
  | |- context [new_ForecastingTrainingTrial C ?cfg mo ?mc' ?ds e2] =>
      destruct (Hnew cfg mo mc' ds e2) as (t & e3 & ->)
  end.
  simpl.
  match goal with
  | |- context [start C t ?cfg e3] =>
      destruct (Hstart t cfg e3) as (loss & e4 & ->)
  end.
  simpl. eauto.
Qed.

Lemma study_optimize_succeeds self n : forall (w : World) st mid inner,
  never_raise C ->
  study w = Some st ->
  task_configs w !! "model_id" = Some mid ->
  task_trial_map w !! mid = Some inner ->
  exists w', study_optimize (objective self) n w = (inr tt, w').
Proof.
  induction n as [|n IH]; intros w st mid inner HC Hst Hmid Hinner.
  - by eexists.
  - rewrite study_optimize_S.
    unfold study_ask, study_tell, self_study, bind, gets, modify, ret.
    rewrite Hst. simpl.
    match goal with
    | |- context [objective self ?trial ?w1] =>
        destruct (objective_succeeds self trial w1 mid inner HC Hmid Hinner)
          as (loss & w2 & Hobj)
    end.
    rewrite Hobj.
    pose proof (objective_frame _ _ _ _ _ Hobj) as (Hstudy & _).
    apply objective_ok in Hobj
      as (lr & mid' & inner' & Hmid' & Hinner' & Hcfg & Hreg & _).
    simpl in *. simplify_eq. rewrite Hstudy. simpl.
    eapply (IH _ _ mid); [done|reflexivity| |].
    + simpl. rewrite Hcfg. by rewrite !lookup_insert_ne.
    + simpl. rewrite Hreg. by rewrite lookup_insert_eq.
Qed.

Lemma tuning_call_succeeds mc mo ds (w0 : World) self w1 inner :
  never_raise C ->
  ForecastingTrainingTask_init C mc mo ds w0 = (inr self, w1) ->
  truthy (tuning self) = true ->
  task_trial_map w0 !! model_id self = Some inner ->
  exists wx w2,
    study_optimize
      (objective (TrainingTrialObjective_init (model_configs self) (dataset self)))
      20 w1 = (inr tt, wx) /\
    ForecastingTrainingTask_call C self w1 = (inr tt, w2).
Proof.
  intros HC Hinit Ht Hinner.
  apply init_tuning in Hinit
    as (Hmid & _ & _ & _ & Hst & Hcfg & Hmap & _); [|done].
  rewrite <- Hcfg in Hmid. rewrite <- Hmap in Hinner.
  destruct (study_optimize_succeeds
              (TrainingTrialObjective_init (model_configs self) (dataset self))
              20 w1 _ _ _ HC Hst Hmid Hinner) as (wx & Hopt).
  exists wx.
  pose proof (study_optimize_ok _ _ _ _ _ _ Hst Hmid Hopt)
    as (losses & cfgs & Hlen & _ & _ & Hst' & _).
  cbn [optuna.best optuna.next_trial_id optuna.create_study] in Hst'.
  destruct (optuna.best_after None (zip (seqZ 0 (Z.of_nat 20)) losses))
    as [[best v]|] eqn:Hbest.
  2:{ apply best_after_None in Hbest as [_ Hnil].
      destruct losses; [done|]. by rewrite seqZ_S in Hnil. }
  destruct HC as (_ & _ & _ & _ & Hrpc).
  destruct (Hrpc (confignode_client self) (model_id self) FINISHED
              ("tid_" +:+ str (optuna._trial_id best)) (ext wx)) as (e & He).
  eexists. split; [done|].
  unfold ForecastingTrainingTask_call, try_except,
    ForecastingTrainingTask_call_body.
  rewrite Ht.
  unfold bind at 1. unfold self_study at 1, bind, gets, ret. rewrite Hst.
  rewrite Hopt.
  unfold study_best_trial, self_study, client_update_model_state, bind, gets,
    modify, ret, call.
  rewrite Hst'. cbn [optuna.best ext set_rpc_log]. rewrite He.
  reflexivity.
Qed.

(** ** Specified properties of the scheduler *)

(** C1. A tuning-mode task whose Search Driver run is not terminated
    early has run exactly 20 evaluations of the Trial Objective, on the
    trial-state handles 0, ..., 19: each ran one executor to a loss,
    printed that loss, and handed its executor a configuration whose
    trial identifier is [tid_k], the 20 identifiers being pairwise
    distinct.  The coordinator was called exactly once, with the task's
    model identifier, [FINISHED], and [tid_b], where [b] is the first
    evaluation whose loss is the minimum of the 20. *)
Theorem C1_tuning_reports_first_minimum mc mo ds (w0 : World) self w1 wx r w2 :
  ForecastingTrainingTask_init C mc mo ds w0 = (inr self, w1) ->
  truthy (tuning self) = true ->
  study_optimize
    (objective (TrainingTrialObjective_init (model_configs self) (dataset self)))
    20 w1 = (inr tt, wx) ->
  ForecastingTrainingTask_call C self w1 = (r, w2) ->
  exists (losses : list Qc) (cfgs : list (gmap string PyVal)) (b : nat) (lb : Qc),
    length losses = 20%nat /\
    start_log w2 = start_log w0 ++ (inr <$> losses) /\
    stdout w2 = stdout w0 ++ zip (seqZ 0 20) losses /\
    trial_log w2 = trial_log w0 ++ cfgs /\
    (fun cfg : gmap string PyVal => cfg !! "trial_id") <$> cfgs =
      (fun k => Some (VStr ("tid_" +:+ str k))) <$> seqZ 0 20 /\
    NoDup ((fun k => "tid_" +:+ str k) <$> seqZ 0 20) /\
    task_configs w0 !! "model_id" = Some (model_id self) /\
    rpc_log w2 =
      rpc_log w0 ++ [(model_id self, FINISHED, "tid_" +:+ str (Z.of_nat b))] /\
    losses !! b = Some lb /\
    (forall j l, losses !! j = Some l -> (lb <= l)%Qc) /\
    (forall j l, (j < b)%nat -> losses !! j = Some l -> (lb < l)%Qc).
Proof.
  intros Hinit Ht Hopt Hcall.
  pose proof (init_frame _ _ _ _ _ _ Hinit) as (Hr0 & _ & Hs0 & Ho0).
  apply init_tuning in Hinit
    as (Hmid & _ & _ & _ & Hst & Hcfg & _ & Htl0); [|done].
  assert (Hbody : exists r' w',
             ForecastingTrainingTask_call_body C self w1 = (r', w') /\
             start_log w2 = start_log w' /\ stdout w2 = stdout w' /\
             trial_log w2 = trial_log w' /\ rpc_log w2 = rpc_log w').
  { apply task_call_inv in Hcall as [(e & w' & Hb & -> & ->)|[Hb ->]];
      eauto 10. }
  destruct Hbody as (r' & w' & Hbody & -> & -> & -> & ->).
  unfold ForecastingTrainingTask_call_body in Hbody. rewrite Ht in Hbody.
  exec_hyps;
    match goal with
    | H : study_optimize _ _ _ = _ |- _ => rewrite Hopt in H; simplify_eq
    end.
  all: pose proof (study_optimize_any _ _ _ _ _ Hopt) as (Hr & _).
  all: eapply (study_optimize_ok _ _ _ _ _ (model_id self)) in Hopt
    as (losses & cfgs & Hlen & Hout & Hsl & Hst' & Htl & Hids & _);
    [| eassumption | congruence].
  all: change (Z.of_nat 20) with 20 in *.
  all: simplify_eq.
  all: cbn [optuna.best optuna.next_trial_id optuna.create_study] in *.
  all: cbn [start_log stdout trial_log rpc_log set_ext set_rpc_log].
  { match goal with
    | H : optuna.best_after None _ = None |- _ =>
        apply best_after_None in H as [_ H]
    end.
    destruct losses; [done|]. by rewrite seqZ_cons in * by lia. }
  match goal with
  | H : optuna.best_after None _ = Some (?t, ?v) |- _ =>
      apply best_after_first_min in H
        as [[? _]|(i & Hi & _ & Hall & Hfirst)]; [done|];
      exists losses, cfgs, i, v
  end.
  apply lookup_zip_with_Some in Hi as (k & l & Heq & Hseq & Hl).
  apply lookup_seqZ in Hseq as [Hk _].
  injection Heq as Hid <-.
  assert (Hzip : forall j l', losses !! j = Some l' ->
                   zip (seqZ 0 20) losses !! j = Some (Z.of_nat j, l')).
  { intros j l' Hj. apply lookup_zip_with_Some. exists (Z.of_nat j), l'.
    split_and!; [done| |done].
    apply lookup_seqZ. apply lookup_lt_Some in Hj. lia. }
  split_and!; try congruence.
  - apply (NoDup_fmap_2 _). apply NoDup_seqZ.
  - rewrite Hr, Hr0, Hid, Hk. do 4 f_equal.
  - intros j l' Hj. by apply (Hall _ _ (Hzip _ _ Hj)).
  - intros j l' Hlt Hj. by apply (Hfirst _ _ Hlt (Hzip _ _ Hj)).
Qed.

(** C2. A direct-mode task whose invocation returns normally has
    created exactly one registry entry, [task_trial_map[m]["tid_0"]],
    holding the identifier of the current process, and has called the
    coordinator exactly once, with [(m, FINISHED, "tid_0")]. *)
Theorem C2_direct_run mc mo ds (w0 : World) self w1 w2 :
  ForecastingTrainingTask_init C mc mo ds w0 = (inr self, w1) ->
  truthy (tuning self) = false ->
  ForecastingTrainingTask_call C self w1 = (inr tt, w2) ->
  exists inner,
    task_configs w0 !! "model_id" = Some (model_id self) /\
    task_trial_map w0 !! model_id self = Some inner /\
    task_trial_map w2 =
      <[model_id self := <[VStr "tid_0" := getpid C]> inner]>
        (task_trial_map w0) /\
    registry w2 (model_id self) (VStr "tid_0") = Some (getpid C) /\
    (forall m k, (m, k) <> (model_id self, VStr "tid_0") ->
                 registry w2 m k = registry w0 m k) /\
    rpc_log w2 = rpc_log w0 ++ [(model_id self, FINISHED, "tid_0")].
Proof.
  intros Hinit Ht Hcall.
  pose proof (init_frame _ _ _ _ _ _ Hinit) as (Hr0 & _).
  apply init_direct in Hinit
    as (inner & Hmid & _ & Hdef & _ & Hinner & _ & Hreg & _); [|done].
  apply task_call_inv in Hcall as [(e & w & _ & ? & _)|[Hbody _]]; [done|].
  pose proof (call_body_direct_frame _ _ _ _ Ht Hbody) as [_ Hmap].
  exists inner. split_and!; try done.
  - congruence.
  - unfold registry. rewrite Hmap, Hreg, lookup_insert_eq. simpl.
    by rewrite lookup_insert_eq.
  - intros m k Hne. unfold registry. rewrite Hmap, Hreg.
    destruct (decide (model_id self = m)) as [<-|Hm].
    + rewrite lookup_insert_eq, Hinner. simpl.
      rewrite lookup_insert_ne; [done|]. congruence.
    + by rewrite lookup_insert_ne.
  - unfold ForecastingTrainingTask_call_body in Hbody. rewrite Ht in Hbody.
    exec. congruence.
Qed.

(** C4. In either mode, when an executor's [start] raises during the
    invocation, the coordinator is not called, the invocation raises
    that same error, and exactly one warning, carrying it, is logged. *)
Theorem C4_start_error_propagates self (w : World) r w' sl e :
  ForecastingTrainingTask_call C self w = (r, w') ->
  start_log w' = start_log w ++ sl ->
  inl e ∈ sl ->
  r = inl e /\ rpc_log w' = rpc_log w /\ warn_log w' = warn_log w ++ [e].
Proof.
  intros Hcall Hsl He.
  apply task_call_inv in Hcall as [(e' & w1 & Hb & -> & ->)|[Hb ->]];
    apply call_body_any in Hb as (Hw & (sl' & Hsl' & Hraise) & _);
    simpl in *; rewrite Hsl' in Hsl; apply app_inv_head in Hsl as <-;
    apply Hraise in He as [He Hr]; simplify_eq.
  by rewrite Hw.
Qed.

(** C5. Every error raised inside the invocation, whatever its origin,
    is logged exactly once, as a warning carrying the error, and the
    invocation then raises that same error, leaving everything else as
    it was when the error was raised: nothing is recovered or retried.
    An invocation that completes logs nothing. *)
Theorem C5_log_once_and_reraise self (w : World) r w' :
  ForecastingTrainingTask_call C self w = (r, w') ->
  match r with
  | inl e =>
      exists w1,
        ForecastingTrainingTask_call_body C self w = (inl e, w1) /\
        w' = set_warn_log (fun l => l ++ [e]) w1 /\
        warn_log w' = warn_log w ++ [e]
  | inr _ =>
      ForecastingTrainingTask_call_body C self w = (r, w') /\
      warn_log w' = warn_log w
  end /\
  (forall e w1,
      ForecastingTrainingTask_call_body C self w = (inl e, w1) -> r = inl e).
Proof.
  intros Hcall.
  apply task_call_inv in Hcall as [(e & w1 & Hb & -> & ->)|[Hb ->]];
    pose proof (call_body_any _ _ _ _ Hb) as (Hw & _).
  - split.
    + exists w1. split_and!; [done..|]. simpl. by rewrite Hw.
    + intros e' w2 Hb'. congruence.
  - split; [done|]. intros e' w2 Hb'. congruence.
Qed.

(** C6.  In direct mode it is the construction of the
    orchestrator that assigns ["tid_0"] to the task configuration and
    records the process identifier in the registry under
    [(model_id, "tid_0")]; the invocation changes neither dictionary. *)
Theorem C6_constructor_registers mc mo ds (w0 : World) self w1 :
  ForecastingTrainingTask_init C mc mo ds w0 = (inr self, w1) ->
  truthy (tuning self) = false ->
  task_configs w1 = <["trial_id" := VStr "tid_0"]> (task_configs w0) /\
  registry w1 (model_id self) (VStr "tid_0") = Some (getpid C) /\
  forall (w : World) r w',
    ForecastingTrainingTask_call C self w = (r, w') ->
    task_configs w' = task_configs w /\ task_trial_map w' = task_trial_map w.
Proof.
  intros Hinit Ht.
  apply init_direct in Hinit
    as (inner & _ & _ & _ & _ & Hinner & Hcfg & Hreg & _); [|done].
  split_and!; [done| |].
  - unfold registry. rewrite Hreg, lookup_insert_eq. simpl.
    by rewrite lookup_insert_eq.
  - intros w r w' Hcall.
    apply task_call_inv in Hcall as [(e' & w2 & Hb & -> & ->)|[Hb ->]];
      by apply call_body_direct_frame in Hb.
Qed.

(** C7. Neither the construction nor the invocation, in either mode
    and whatever the outcome, calls the coordinator with a state other
    than [FINISHED]: the construction does not call it, and the
    invocation adds to the calls made only calls that carry
    [FINISHED]. *)
Theorem C7_only_FINISHED_reported :
  (forall mc mo ds (w : World),
      rpc_log (ForecastingTrainingTask_init C mc mo ds w).2 = rpc_log w) /\
  (forall self (w : World),
      exists calls,
        rpc_log (ForecastingTrainingTask_call C self w).2 =
          rpc_log w ++ calls /\
        forall m st tid, (m, st, tid) ∈ calls -> st = FINISHED).
Proof.
  split.
  - intros mc mo ds w.
    destruct (ForecastingTrainingTask_init C mc mo ds w) as [r w1] eqn:H.
    by apply init_frame in H as (? & _).
  - intros self w.
    destruct (ForecastingTrainingTask_call C self w) as [r w'] eqn:H.
    apply task_call_inv in H as [(e' & w2 & Hb & -> & ->)|[Hb ->]];
      apply call_body_any in Hb as (_ & _ & [Hr|[tid Hr]]); simpl.
    all: first
      [ exists []; rewrite app_nil_r; split; [done|];
        intros ? ? ? Hin; by apply elem_of_nil in Hin
      | eexists [_]; split; [done|]; intros ? ? ? Hin;
        apply list_elem_of_singleton in Hin; by simplify_eq ].
Qed.

(** C8. An evaluation of the Trial Objective asks the sampling
    primitive for a learning rate between [1e-7] and [1e-1] and writes
    the value returned into the task configuration: with a sampling
    primitive that respects the bounds it is given, the learning rate
    written, and handed to the executor, lies within [[1e-7, 1e-1]].
    When the sampling itself raises, the evaluation raises the same
    error and writes nothing. *)
Theorem C8_learning_rate_in_range self trial (w : World) r w' :
  sampling_in_bounds C ->
  TrainingTrialObjective_call C self trial w = (r, w') ->
  (exists e x,
      suggest_float C trial "lr" lr_low lr_high true (ext w) = (inl e, x) /\
      r = inl e /\ task_configs w' = task_configs w /\
      trial_log w' = trial_log w) \/
  (exists lr x,
      suggest_float C trial "lr" lr_low lr_high true (ext w) = (inr lr, x) /\
      task_configs w' !! "learning_rate" = Some (VFloat lr) /\
      (lr_low <= lr <= lr_high)%Qc /\
      exists cfgs,
        trial_log w' = trial_log w ++ cfgs /\
        forall cfg, cfg ∈ cfgs -> cfg !! "learning_rate" = Some (VFloat lr)).
Proof.
  intros Hbounds H. unfold TrainingTrialObjective_call in H.
  exec;
    [ left; eauto 10 | right; do 2 eexists; split; [eassumption|] .. ];
    (split; [by rewrite lookup_insert_ne, lookup_insert_eq|]);
    (split; [by eapply Hbounds|]).
  all: first
    [ exists []; rewrite app_nil_r; split; [done|];
      intros ? Hin; by apply elem_of_nil in Hin
    | eexists [_]; split; [done|]; intros ? Hin;
      apply list_elem_of_singleton in Hin; subst;
      by rewrite lookup_insert_ne, lookup_insert_eq ].
Qed.

(** C9. In a tuning run every registry entry written holds the one
    process identifier [os.getpid()] returns: whatever the outcome, an
    entry present afterwards was there before the orchestrator was
    constructed or holds that identifier; and after a run that returns
    normally the entries of all 20 trials hold it. *)
Theorem C9_tuning_run_single_pid mc mo ds (w0 : World) self w1 r w2 :
  ForecastingTrainingTask_init C mc mo ds w0 = (inr self, w1) ->
  truthy (tuning self) = true ->
  ForecastingTrainingTask_call C self w1 = (r, w2) ->
  (forall m k p, registry w2 m k = Some p ->
                 p = getpid C \/ registry w0 m k = Some p) /\
  (r = inr tt ->
   forall k, 0 <= k < 20 ->
             registry w2 (model_id self) (VInt k) = Some (getpid C)).
Proof.
  intros Hinit Ht Hcall.
  apply init_tuning in Hinit
    as (Hmid & _ & _ & _ & Hst & Hcfg & Hmap & _); [|done].
  assert (Hbody : exists r' w',
             ForecastingTrainingTask_call_body C self w1 = (r', w') /\
             task_trial_map w2 = task_trial_map w' /\
             (r = inr tt -> r' = inr tt)).
  { apply task_call_inv in Hcall as [(e & w' & Hb & -> & ->)|[Hb ->]];
      eauto 10. }
  destruct Hbody as (r' & w' & Hb & Hmap' & Hok).
  unfold ForecastingTrainingTask_call_body in Hb. rewrite Ht in Hb.
  assert (Hreg0 : forall m k, registry w1 m k = registry w0 m k).
  { intros m k. unfold registry. by rewrite Hmap. }
  assert (Hreg2 : forall (w'' : World) m k,
             task_trial_map w' = task_trial_map w'' ->
             registry w2 m k = registry w'' m k).
  { intros w'' m k Heq. unfold registry. by rewrite Hmap', Heq. }
  exec_hyps.
  all: try match goal with
    | H : study_optimize _ _ _ = (_, ?x) |- _ =>
        pose proof (study_optimize_any _ _ _ _ _ H) as (_ & _ & _ & Hany);
        split;
        [ intros m k p; rewrite (Hreg2 x) by done; intros Hp;
          apply Hany in Hp as [?|Hp]; [by left|right; by rewrite <- Hreg0]
        | intros Hr; try (by specialize (Hok Hr)) ]
    end.
  match goal with
  | H : study_optimize _ _ _ = (_, ?x) |- _ =>
      eapply (study_optimize_ok _ _ _ _ _ (model_id self)) in H
        as (_ & _ & _ & _ & _ & _ & _ & _ & _ & Hin & _);
        [| eassumption | congruence];
      intros k Hk; rewrite (Hreg2 x) by done; apply Hin
  end.
  cbn [optuna.next_trial_id optuna.create_study]. lia.
Qed.

(** ** Further properties of one evaluation of the Trial Objective *)

Lemma objective_configs_frame self trial (w : World) r w' :
  TrainingTrialObjective_call C self trial w = (r, w') ->
  forall key, key <> "learning_rate" -> key <> "trial_id" ->
    task_configs w' !! key = task_configs w !! key.
Proof.
  unfold TrainingTrialObjective_call. intros H key ? ?.
  exec; by rewrite ?lookup_insert_ne by done.
Qed.

Lemma objective_registry_frame self trial (w : World) r w' :
  TrainingTrialObjective_call C self trial w = (r, w') ->
  forall m k,
    k <> VInt (optuna._trial_id trial) \/ task_configs w !! "model_id" <> Some m ->
    registry w' m k = registry w m k.
Proof.
  unfold TrainingTrialObjective_call. intros H m k Hmk.
  exec; try done; unfold registry; simpl;
    match goal with
    | Hc : <[_ := _]> (<[_ := _]> _) !! "model_id" = Some ?mid,
      Hi : task_trial_map w !! ?mid = Some ?inner |- _ =>
        rewrite !lookup_insert_ne in Hc by done;
        destruct (decide (mid = m)) as [->|];
        [ rewrite lookup_insert_eq, Hi; simpl;
          destruct Hmk as [?|?]; [by rewrite lookup_insert_ne | done]
        | by rewrite lookup_insert_ne ]
    end.
Qed.

Lemma registry_extends_same (w w' : World) :
  task_trial_map w' = task_trial_map w -> registry_extends w w'.
Proof.
  intros Heq. unfold registry_extends, registry. rewrite Heq. by split.
Qed.

Lemma registry_extends_insert (w w' : World) mid inner k p :
  task_trial_map w !! mid = Some inner ->
  task_trial_map w' = <[mid := <[k := p]> inner]> (task_trial_map w) ->
  registry_extends w w'.
Proof.
  intros Hi Heq. unfold registry_extends, registry. rewrite Heq. split.
  - intros m. destruct (decide (mid = m)) as [<-|].
    + rewrite lookup_insert_eq, Hi. split; eauto.
    + by rewrite lookup_insert_ne.
  - intros m k'. destruct (decide (mid = m)) as [<-|].
    + rewrite lookup_insert_eq, Hi. simpl.
      destruct (decide (k = k')) as [<-|].
      * rewrite lookup_insert_eq. eauto.
      * by rewrite lookup_insert_ne.
    + by rewrite lookup_insert_ne.
Qed.

Lemma registry_extends_trans (w1 w2 w3 : World) :
  registry_extends w1 w2 -> registry_extends w2 w3 -> registry_extends w1 w3.
Proof.
  intros [Hd1 He1] [Hd2 He2]. split.
  - intros m. by rewrite Hd2.
  - intros m k H. by apply He2, He1.
Qed.

Lemma objective_registry_extends self trial (w : World) r w' :
  TrainingTrialObjective_call C self trial w = (r, w') ->
  registry_extends w w'.
Proof.
  unfold TrainingTrialObjective_call. intros H.
  exec;
    first [ by apply registry_extends_same
          | eapply registry_extends_insert; [eassumption | done] ].
Qed.

(** X5. An evaluation constructs an executor only after it has recorded
    the process identifier under the model and the handle's sequence
    number, and starts only an executor it has constructed: either no
    executor was constructed or started and the evaluation raised, or the
    registry entry is in place, exactly one executor was handed the task
    configuration (carrying the handle's trial identifier), and the
    outcome of the evaluation is the outcome of that executor's [start],
    if it got that far. *)
Theorem X5_registered_before_executor self trial (w : World) r w' :
  TrainingTrialObjective_call C self trial w = (r, w') ->
  (trial_log w' = trial_log w /\ start_log w' = start_log w /\
   exists e, r = inl e) \/
  (exists mid,
      task_configs w !! "model_id" = Some mid /\
      registry w' mid (VInt (optuna._trial_id trial)) = Some (getpid C) /\
      trial_log w' = trial_log w ++ [task_configs w'] /\
      task_configs w' !! "trial_id" =
        Some (VStr ("tid_" +:+ str (optuna._trial_id trial))) /\
      ((start_log w' = start_log w /\ exists e, r = inl e) \/
       start_log w' = start_log w ++ [r])).
Proof.
  unfold TrainingTrialObjective_call. intros H.
  exec; try (left; by eauto);
    right;
    match goal with
    | Hc : <[_ := _]> (<[_ := _]> _) !! "model_id" = Some ?mid,
      Hi : task_trial_map w !! ?mid = Some ?inner |- _ =>
        rewrite !lookup_insert_ne in Hc by done; exists mid
    end;
    (split_and!;
     [ done
     | unfold registry; simpl; rewrite lookup_insert_eq; simpl;
       by rewrite lookup_insert_eq
     | done
     | by rewrite lookup_insert_eq
     | first [ left; by eauto | by right ] ]).
Qed.


(** An evaluation whose model has no dictionary in the registry: it
    raises [KeyError] for the model identifier after the sampled learning
    rate and the trial identifier are written and the model is built, and
    before any executor is constructed. *)
Lemma objective_unregistered self trial (w : World) lr e1 mo mc e2 mid :
  suggest_float C trial "lr" lr_low lr_high true (ext w) = (inr lr, e1) ->
  create_forecast_model C (objective_model_configs self) e1 =
    (inr (mo, mc), e2) ->
  task_configs w !! "model_id" = Some mid ->
  task_trial_map w !! mid = None ->
  TrainingTrialObjective_call C self trial w =
    (inl (KeyError mid),
     set_ext (fun _ => e2)
       (set_task_configs
          (fun cfg =>
             <["trial_id" := VStr ("tid_" +:+ str (optuna._trial_id trial))]>
               (<["learning_rate" := VFloat lr]> cfg)) w)).
Proof.
  intros Hs Hc Hmid Hreg.
  unfold TrainingTrialObjective_call, registry_setitem, configs_getitem,
    configs_setitem, bind, call, gets, modify, ret, raise.
  rewrite Hs. simpl. rewrite Hc. simpl.
  rewrite !lookup_insert_ne by done. rewrite Hmid. simpl. by rewrite Hreg.
Qed.

(** X7. When the registry has no dictionary for the model, an evaluation
    whose sampling and model construction succeed raises [KeyError] for
    the model identifier: the learning rate and the trial identifier are
    already written in the task configuration, the registry is unchanged,
    and no executor is constructed or started. *)
Theorem X7_evaluation_without_registry_entry
    self trial (w : World) lr e1 mo mc e2 mid :
  suggest_float C trial "lr" lr_low lr_high true (ext w) = (inr lr, e1) ->
  create_forecast_model C (objective_model_configs self) e1 =
    (inr (mo, mc), e2) ->
  task_configs w !! "model_id" = Some mid ->
  task_trial_map w !! mid = None ->
  let '(r, w') := TrainingTrialObjective_call C self trial w in
  r = inl (KeyError mid) /\
  task_configs w' =
    <["trial_id" := VStr ("tid_" +:+ str (optuna._trial_id trial))]>
      (<["learning_rate" := VFloat lr]> (task_configs w)) /\
  task_trial_map w' = task_trial_map w /\
  trial_log w' = trial_log w /\ start_log w' = start_log w.
Proof.
  intros Hs Hc Hmid Hreg.
  by rewrite (objective_unregistered _ _ _ _ _ _ _ _ _ Hs Hc Hmid Hreg).
Qed.

(** X8. Two successful evaluations in a row, on handles [t1] then [t2]:
    the task configuration ends as one evaluation on [t2] alone would
    leave it (the first trial's learning rate and identifier are
    overwritten), the registry holds the process identifier under both
    sequence numbers, the two executors were handed configurations
    carrying their own trial identifiers, and these identifiers are equal
    only if the sequence numbers are. *)
Theorem X8_two_evaluations self t1 t2 (w : World) l1 w1 l2 w2 :
  TrainingTrialObjective_call C self t1 w = (inr l1, w1) ->
  TrainingTrialObjective_call C self t2 w1 = (inr l2, w2) ->
  exists lr2 mid c1 c2,
    task_configs w2 =
      <["trial_id" := VStr ("tid_" +:+ str (optuna._trial_id t2))]>
        (<["learning_rate" := VFloat lr2]> (task_configs w)) /\
    task_configs w !! "model_id" = Some mid /\
    registry w2 mid (VInt (optuna._trial_id t1)) = Some (getpid C) /\
    registry w2 mid (VInt (optuna._trial_id t2)) = Some (getpid C) /\
    trial_log w2 = trial_log w ++ [c1; c2] /\
    c1 !! "trial_id" = Some (VStr ("tid_" +:+ str (optuna._trial_id t1))) /\
    c2 !! "trial_id" = Some (VStr ("tid_" +:+ str (optuna._trial_id t2))) /\
    (c1 !! "trial_id" = c2 !! "trial_id" ->
     optuna._trial_id t1 = optuna._trial_id t2) /\
    stdout w2 = stdout w ++ [(optuna._trial_id t1, l1); (optuna._trial_id t2, l2)].
Proof.
  intros H1 H2.
  apply objective_ok in H1
    as (lr1 & mid & inner & Hmid & Hinner & Hcfg1 & Hreg1 & Hout1 & Htl1 & _).
  apply objective_ok in H2
    as (lr2 & mid' & inner' & Hmid' & Hinner' & Hcfg2 & Hreg2 & Hout2 & Htl2 & _).
  rewrite Hcfg1 in Hmid'. rewrite !lookup_insert_ne in Hmid' by done.
  simplify_eq.
  rewrite Hreg1, lookup_insert_eq in Hinner'. simplify_eq.
  exists lr2, mid, (task_configs w1), (task_configs w2).
  split_and!.
  - rewrite Hcfg2, Hcfg1. apply map_eq. intros key.
    destruct (decide (key = "trial_id")) as [->|];
      [by rewrite !lookup_insert_eq|].
    rewrite !(lookup_insert_ne _ "trial_id") by done.
    destruct (decide (key = "learning_rate")) as [->|];
      [by rewrite !lookup_insert_eq|].
    by rewrite !lookup_insert_ne by congruence.
  - done.
  - unfold registry. rewrite Hreg2, lookup_insert_eq. simpl.
    destruct (decide (optuna._trial_id t2 = optuna._trial_id t1)) as [->|].
    + by rewrite lookup_insert_eq.
    + rewrite lookup_insert_ne by congruence. by rewrite lookup_insert_eq.
  - unfold registry. rewrite Hreg2, lookup_insert_eq. simpl.
    by rewrite lookup_insert_eq.
  - by rewrite Htl2, Htl1, <- app_assoc.
  - by rewrite Hcfg1, lookup_insert_eq.
  - by rewrite Hcfg2, lookup_insert_eq.
  - rewrite Hcfg1, Hcfg2, !lookup_insert_eq. intros Heq.
    apply (tid_inj (optuna._trial_id t1) (optuna._trial_id t2)). congruence.
  - by rewrite Hout2, Hout1, <- app_assoc.
Qed.

(** ** Further properties of the construction of the orchestrator *)

(** X1. A task configuration without [model_id], or with [model_id] but
    without [tuning], makes the construction raise [KeyError] for the
    first missing key, before anything else happens: no client is
    borrowed and nothing is written. *)
Theorem X1_constructor_missing_key mc mo ds (w : World) :
  task_configs w !! "model_id" = None \/ task_configs w !! "tuning" = None ->
  ForecastingTrainingTask_init C mc mo ds w =
    (inl (KeyError (VStr match task_configs w !! "model_id" with
                         | None => "model_id"
                         | Some _ => "tuning"
                         end)), w).
Proof.
  intros Hk.
  unfold ForecastingTrainingTask_init, configs_getitem, bind, gets, ret, raise.
  destruct (task_configs w !! "model_id") as [m|]; [|done].
  destruct Hk as [?|Htn]; [done|]. by rewrite Htn.
Qed.

(** X3. A construction that raises has written no registry entry,
    created no study, called no coordinator and logged no warning (the
    error is not logged: the handler guards the invocation only); the
    task configuration is either untouched or already carries the trial
    identifier ["tid_0"], which is not rolled back. *)
Theorem X3_failed_construction mc mo ds (w : World) e w' :
  ForecastingTrainingTask_init C mc mo ds w = (inl e, w') ->
  task_trial_map w' = task_trial_map w /\ study w' = study w /\
  rpc_log w' = rpc_log w /\ warn_log w' = warn_log w /\
  start_log w' = start_log w /\
  (task_configs w' = task_configs w \/
   task_configs w' = <["trial_id" := VStr "tid_0"]> (task_configs w)).
Proof.
  unfold ForecastingTrainingTask_init. intros H.
  exec; split_and!; auto.
Qed.

(** X4. In direct mode, when the registry has no dictionary for the
    model, the construction raises [KeyError] for the model identifier,
    and does so last: the trial identifier ["tid_0"] is already assigned
    and an executor already constructed on that configuration. *)
Theorem X4_direct_construction_without_registry_entry
    mc mo ds (w : World) mid tn cl e1 t e2 :
  task_configs w !! "model_id" = Some mid ->
  task_configs w !! "tuning" = Some tn ->
  truthy tn = false ->
  borrow_config_node_client C (ext w) = (inr cl, e1) ->
  new_ForecastingTrainingTrial C
    (<["trial_id" := VStr "tid_0"]> (task_configs w)) mo mc ds e1 = (inr t, e2) ->
  task_trial_map w !! mid = None ->
  let '(r, w') := ForecastingTrainingTask_init C mc mo ds w in
  r = inl (KeyError mid) /\
  task_configs w' = <["trial_id" := VStr "tid_0"]> (task_configs w) /\
  trial_log w' = trial_log w ++ [task_configs w'] /\
  task_trial_map w' = task_trial_map w.
Proof.
  intros Hmid Htn Ht Hb Hnew Hreg.
  unfold ForecastingTrainingTask_init, construct_trial, registry_setitem,
    configs_getitem, configs_setitem, bind, call, gets, modify, ret, raise.
  rewrite Hmid, Htn. simpl. rewrite Hb. simpl. rewrite Ht. simpl.
  rewrite Hnew. simpl. by rewrite Hreg.
Qed.

(** ** Further properties of the invocation in direct mode *)

(** A direct-mode invocation, spelled out. *)
Lemma direct_call_effects self (w : World) r w' t d :
  truthy (tuning self) = false ->
  trial self = Some t ->
  default_trial_id self = Some d ->
  ForecastingTrainingTask_call C self w = (r, w') ->
  exists o e1,
    start C t (task_configs w) (ext w) = (o, e1) /\
    start_log w' = start_log w ++ [o] /\
    task_configs w' = task_configs w /\
    task_trial_map w' = task_trial_map w /\
    trial_log w' = trial_log w /\
    match o with
    | inl e =>
        r = inl e /\ rpc_log w' = rpc_log w /\
        warn_log w' = warn_log w ++ [e]
    | inr _ =>
        exists e2,
          update_model_state C (confignode_client self) (model_id self)
            FINISHED d e1 = (r, e2) /\
          rpc_log w' = rpc_log w ++ [(model_id self, FINISHED, d)] /\
          warn_log w' =
            warn_log w ++ match r with inl e => [e] | inr _ => [] end
    end.
Proof.
  intros Ht Htrial Hd Hcall.
  apply task_call_inv in Hcall as [(e & w1 & Hb & -> & ->)|[Hb ->]];
    unfold ForecastingTrainingTask_call_body in Hb; rewrite Ht in Hb;
    unfold self_trial, self_default_trial_id in Hb; rewrite Htrial, Hd in Hb;
    exec;
    do 2 eexists; (split; [eassumption|]); (do 4 (split; [done|]));
    try done; eexists; (split; [eassumption|]); simpl;
    by rewrite ?app_nil_r.
Qed.

(** X10. A direct-mode invocation starts the executor the orchestrator
    holds exactly once.  When [start] raises, that error is raised and
    logged and the coordinator is not called.  When it returns, its loss
    is discarded, the coordinator is called exactly once, with
    [FINISHED] and the default trial identifier, and the outcome of the
    invocation is the outcome of that call, an error of the coordinator
    being logged once.  The task configuration, the registry and the
    executors constructed are left as they were. *)
Theorem X10_direct_invocation self (w : World) r w' t d :
  truthy (tuning self) = false ->
  trial self = Some t ->
  default_trial_id self = Some d ->
  ForecastingTrainingTask_call C self w = (r, w') ->
  exists o e1,
    start C t (task_configs w) (ext w) = (o, e1) /\
    start_log w' = start_log w ++ [o] /\
    task_configs w' = task_configs w /\
    task_trial_map w' = task_trial_map w /\
    trial_log w' = trial_log w /\
    match o with
    | inl e =>
        r = inl e /\ rpc_log w' = rpc_log w /\
        warn_log w' = warn_log w ++ [e]
    | inr _ =>
        exists e2,
          update_model_state C (confignode_client self) (model_id self)
            FINISHED d e1 = (r, e2) /\
          rpc_log w' = rpc_log w ++ [(model_id self, FINISHED, d)] /\
          warn_log w' =
            warn_log w ++ match r with inl e => [e] | inr _ => [] end
    end.
Proof. apply direct_call_effects. Qed.

(** X9. The invocation keeps no record of having run: invoking a
    direct-mode orchestrator again starts the same executor again and
    reports to the coordinator again, so two invocations that return
    normally leave two starts and two identical coordinator calls. *)
Theorem X9_direct_invocation_twice self (w : World) w1 w2 t d :
  truthy (tuning self) = false ->
  trial self = Some t ->
  default_trial_id self = Some d ->
  ForecastingTrainingTask_call C self w = (inr tt, w1) ->
  ForecastingTrainingTask_call C self w1 = (inr tt, w2) ->
  rpc_log w2 =
    rpc_log w ++ [(model_id self, FINISHED, d); (model_id self, FINISHED, d)] /\
  (exists l1 l2, start_log w2 = start_log w ++ [inr l1; inr l2]) /\
  warn_log w2 = warn_log w /\
  task_configs w2 = task_configs w /\ task_trial_map w2 = task_trial_map w.
Proof.
  intros Ht Htrial Hd H1 H2.
  apply (direct_call_effects _ _ _ _ _ _ Ht Htrial Hd) in H1
    as ([e|l1] & e1 & _ & Hs1 & Hc1 & Hm1 & _ & H1); [by destruct H1|].
  apply (direct_call_effects _ _ _ _ _ _ Ht Htrial Hd) in H2
    as ([e|l2] & e1' & _ & Hs2 & Hc2 & Hm2 & _ & H2); [by destruct H2|].
  destruct H1 as (? & _ & Hr1 & Hw1). destruct H2 as (? & _ & Hr2 & Hw2).
  simpl in *. rewrite app_nil_r in *.
  split_and!; try congruence.
  - by rewrite Hr2, Hr1, <- app_assoc.
  - exists l1, l2. by rewrite Hs2, Hs1, <- app_assoc.
Qed.

(** ** Further properties of whole runs *)

Lemma study_optimize_0 (objective : optuna.Trial -> M World Qc) :
  study_optimize objective 0 = ret tt.
Proof. reflexivity. Qed.

(** What a run of the Search Driver over the Trial Objective leaves
    alone, whatever its outcome. *)
Lemma study_optimize_frame self n : forall (w : World) r w',
  study_optimize (objective self) n w = (r, w') ->
  (forall key, key <> "learning_rate" -> key <> "trial_id" ->
               task_configs w' !! key = task_configs w !! key) /\
  registry_extends w w' /\
  (forall m k, (forall z, k <> VInt z) -> registry w' m k = registry w m k).
Proof.
  induction n as [|n IH]; intros w r w' H.
  - rewrite study_optimize_0 in H. exec.
    split_and!; [done|by apply registry_extends_same|done].
  - rewrite study_optimize_S in H. unfold study_ask, study_tell in H.
    exec_hyps;
      try match goal with
        | H : TrainingTrialObjective_call _ _ _ _ = _ |- _ =>
            pose proof (objective_configs_frame _ _ _ _ _ H) as Hc;
            pose proof (objective_registry_extends _ _ _ _ _ H) as He;
            pose proof (objective_registry_frame _ _ _ _ _ H) as Hf
        end;
      try match goal with
        | H : study_optimize _ _ _ = _ |- _ =>
            apply IH in H as (Hc' & He' & Hf')
        end.
    + split_and!; [done|by apply registry_extends_same|done].
    + split_and!; [done|done|]. intros m k Hk. apply Hf. left. apply Hk.
    + split_and!; [done|done|]. intros m k Hk. apply Hf. left. apply Hk.
    + split_and!.
      * intros key ? ?. rewrite Hc' by done. by apply Hc.
      * eapply registry_extends_trans; [exact He|exact He'].
      * intros m k Hk. rewrite Hf' by done. apply Hf. left. apply Hk.
Qed.

Lemma call_frame self (w : World) r w' :
  ForecastingTrainingTask_call C self w = (r, w') ->
  (forall key, key <> "learning_rate" -> key <> "trial_id" ->
               task_configs w' !! key = task_configs w !! key) /\
  registry_extends w w' /\
  (forall m k, (forall z, k <> VInt z) -> registry w' m k = registry w m k).
Proof.
  intros Hcall.
  assert (Hbody : exists r' w1,
             ForecastingTrainingTask_call_body C self w = (r', w1) /\
             task_configs w' = task_configs w1 /\
             task_trial_map w' = task_trial_map w1).
  { apply task_call_inv in Hcall as [(e & w1 & Hb & -> & ->)|[Hb ->]];
      eauto 10. }
  destruct Hbody as (r' & w1 & Hb & Hcfg & Hmap).
  assert (Hgoal :
    (forall key, key <> "learning_rate" -> key <> "trial_id" ->
                 task_configs w1 !! key = task_configs w !! key) /\
    registry_extends w w1 /\
    (forall m k, (forall z, k <> VInt z) -> registry w1 m k = registry w m k)).
  { unfold ForecastingTrainingTask_call_body in Hb.
    exec_hyps;
      try match goal with
        | H : study_optimize _ _ _ = _ |- _ =>
            apply study_optimize_frame in H as (Hc' & He' & Hf')
        end;
      try (split_and!; [done|by apply registry_extends_same|done]);
      (split_and!; [done| |done]);
      (eapply registry_extends_trans; [exact He'|by apply registry_extends_same]). }
  destruct Hgoal as (Hc & He & Hf).
  unfold registry_extends, registry in *. rewrite Hcfg, Hmap. done.
Qed.

Lemma init_any mc mo ds (w : World) r w1 :
  ForecastingTrainingTask_init C mc mo ds w = (r, w1) ->
  (forall key, key <> "trial_id" ->
               task_configs w1 !! key = task_configs w !! key) /\
  registry_extends w w1 /\
  (forall m k, k <> VStr "tid_0" -> registry w1 m k = registry w m k).
Proof.
  unfold ForecastingTrainingTask_init. intros H.
  exec;
    (split_and!;
     [ intros key ?; by rewrite ?lookup_insert_ne by done
     | first [ by apply registry_extends_same
             | eapply registry_extends_insert; [eassumption|done] ]
     | try done ]).
  intros m k Hk. unfold registry. simpl.
  match goal with
  | Hi : task_trial_map _ !! ?mid = Some _ |- _ =>
      destruct (decide (mid = m)) as [->|];
      [ rewrite lookup_insert_eq; simpl in Hi; rewrite Hi; simpl;
        by rewrite lookup_insert_ne
      | by rewrite lookup_insert_ne ]
  end.
Qed.

(** X11. Neither the construction nor the invocation, in either mode and
    whatever the outcome, changes a key of the task configuration other
    than the ones they assign: the construction writes at most
    [trial_id], the invocation at most [learning_rate] and [trial_id].
    In particular [model_id] and [tuning] keep the values the constructor
    read. *)
Theorem X11_configuration_frame :
  (forall mc mo ds (w : World) key,
      key <> "trial_id" ->
      task_configs (ForecastingTrainingTask_init C mc mo ds w).2 !! key =
        task_configs w !! key) /\
  (forall self (w : World) key,
      key <> "learning_rate" -> key <> "trial_id" ->
      task_configs (ForecastingTrainingTask_call C self w).2 !! key =
        task_configs w !! key).
Proof.
  split.
  - intros mc mo ds w key Hk.
    destruct (ForecastingTrainingTask_init C mc mo ds w) as [r w1] eqn:Hrun.
    apply init_any in Hrun as (Hc & _). by apply Hc.
  - intros self w key Hk1 Hk2.
    destruct (ForecastingTrainingTask_call C self w) as [r w'] eqn:Hrun.
    apply call_frame in Hrun as (Hc & _). by apply Hc.
Qed.

(** X12. The scheduler only ever adds to or overwrites entries of
    existing registry dictionaries: after a construction or an
    invocation, in either mode and whatever the outcome, exactly the
    models that had a dictionary have one (none is created, none
    dropped), and every entry that was present is still present. *)
Theorem X12_registry_only_grows :
  (forall mc mo ds (w : World),
      registry_extends w (ForecastingTrainingTask_init C mc mo ds w).2) /\
  (forall self (w : World),
      registry_extends w (ForecastingTrainingTask_call C self w).2).
Proof.
  split.
  - intros mc mo ds w.
    destruct (ForecastingTrainingTask_init C mc mo ds w) as [r w1] eqn:Hrun.
    by apply init_any in Hrun as (_ & He & _).
  - intros self w.
    destruct (ForecastingTrainingTask_call C self w) as [r w'] eqn:Hrun.
    by apply call_frame in Hrun as (_ & He & _).
Qed.


(** A run of the Search Driver whose first evaluation raises. *)
Lemma study_optimize_first_raises self n (w : World) st e w' :
  study w = Some st ->
  TrainingTrialObjective_call C self
    {| optuna._trial_id := optuna.next_trial_id st |}
    (set_study (fun _ => Some (optuna.ask st).2) w) = (inl e, w') ->
  study_optimize (objective self) (S n) w = (inl e, w').
Proof.
  intros Hst Hobj. rewrite study_optimize_S.
  unfold study_ask, self_study, bind, gets, modify, ret.
  rewrite Hst. simpl. simpl in Hobj. by rewrite Hobj.
Qed.

(** A tuning-mode invocation whose Search Driver run raises. *)
Lemma tuning_call_raises self (w : World) st e wx :
  truthy (tuning self) = true ->
  study w = Some st ->
  study_optimize
    (objective (TrainingTrialObjective_init (model_configs self) (dataset self)))
    20 w = (inl e, wx) ->
  ForecastingTrainingTask_call C self w =
    (inl e, set_warn_log (fun l => l ++ [e]) wx).
Proof.
  intros Ht Hst Hopt.
  unfold ForecastingTrainingTask_call, try_except,
    ForecastingTrainingTask_call_body.
  rewrite Ht.
  unfold bind at 1. unfold self_study at 1, bind, gets, ret. rewrite Hst.
  rewrite Hopt. unfold logger_warn, modify, raise. reflexivity.
Qed.

(** X2. In tuning mode the construction does not look at the registry:
    it succeeds even when the registry has no dictionary for the model.
    The invocation then fails in its first evaluation, with [KeyError]
    for the model identifier: no executor is constructed or started, the
    coordinator is not called, the error is logged once, and the task
    configuration is left carrying the first trial's identifier. *)
Theorem X2_tuning_without_registry_entry mc mo ds (w0 : World) self w1 :
  never_raise C ->
  ForecastingTrainingTask_init C mc mo ds w0 = (inr self, w1) ->
  truthy (tuning self) = true ->
  task_trial_map w0 !! model_id self = None ->
  let '(r, w2) := ForecastingTrainingTask_call C self w1 in
  r = inl (KeyError (model_id self)) /\
  rpc_log w2 = rpc_log w0 /\ trial_log w2 = trial_log w0 /\
  start_log w2 = start_log w0 /\
  warn_log w2 = warn_log w0 ++ [KeyError (model_id self)] /\
  task_trial_map w2 = task_trial_map w0 /\
  task_configs w2 !! "trial_id" = Some (VStr "tid_0").
Proof.
  intros (Hsample & Hcreate & _) Hinit Ht Hreg.
  pose proof (init_frame _ _ _ _ _ _ Hinit) as (Hr0 & Hw0 & Hs0 & _).
  apply init_tuning in Hinit
    as (Hmid & _ & _ & _ & Hst & Hcfg & Hmap & Htl); [|done].
  set (self' := TrainingTrialObjective_init (model_configs self) (dataset self)).
  set (w1' := set_study (fun _ => Some (optuna.ask optuna.create_study).2) w1).
  destruct (Hsample {| optuna._trial_id := 0 |} "lr" lr_low lr_high true (ext w1'))
    as (lr & e1 & Hs).
  destruct (Hcreate (objective_model_configs self') e1) as ([mo' mc'] & e2 & Hc).
  assert (Hmid' : task_configs w1' !! "model_id" = Some (model_id self))
    by (simpl; congruence).
  assert (Hreg' : task_trial_map w1' !! model_id self = None)
    by (simpl; congruence).
  pose proof (objective_unregistered self' _ w1' _ _ _ _ _ _ Hs Hc Hmid' Hreg')
    as Hobj.
  rewrite (tuning_call_raises self w1 _ _ _ Ht Hst
             (study_optimize_first_raises self' 19 w1 _ _ _ Hst Hobj)).
  simpl. split_and!; try congruence.
  by rewrite lookup_insert_eq.
Qed.

(** X13. With collaborators none of whose calls raises, an orchestrator
    whose construction has succeeded completes its invocation normally:
    always in direct mode, and in tuning mode provided the registry has a
    dictionary for the model. *)
Theorem X13_invocation_completes mc mo ds (w0 : World) self w1 :
  never_raise C ->
  ForecastingTrainingTask_init C mc mo ds w0 = (inr self, w1) ->
  (truthy (tuning self) = true ->
   is_Some (task_trial_map w0 !! model_id self)) ->
  exists w2, ForecastingTrainingTask_call C self w1 = (inr tt, w2).
Proof.
  intros HC Hinit Hreg.
  destruct (truthy (tuning self)) eqn:Ht.
  - destruct (Hreg eq_refl) as [inner Hinner].
    destruct (tuning_call_succeeds _ _ _ _ _ _ _ HC Hinit Ht Hinner)
      as (_ & w2 & _ & H2). eauto.
  - apply init_direct in Hinit
      as (inner & _ & _ & Hd & [t Htrial] & _); [|done].
    destruct (ForecastingTrainingTask_call C self w1) as [r w2] eqn:Hcall.
    exists w2. f_equal.
    apply (direct_call_effects _ _ _ _ _ _ Ht Htrial Hd) in Hcall
      as (o & e1 & Hs & _ & _ & _ & _ & Ho).
    destruct HC as (_ & _ & _ & Hstart & Hrpc).
    destruct (Hstart t (task_configs w1) (ext w1)) as (loss & e1' & Hs').
    rewrite Hs' in Hs. simplify_eq.
    destruct Ho as (e2 & Hu & _).
    destruct (Hrpc (confignode_client self) (model_id self) FINISHED
                "tid_0" e1) as (e2' & Hu').
    rewrite Hu' in Hu. by simplify_eq.
Qed.

(** X16. In tuning mode the coordinator hears of the task only after
    the whole budget has been spent successfully: after an invocation,
    whatever its outcome, either the coordinator has not been called, or
    it has been called exactly once and all 20 evaluations ran their
    executor to a loss. *)
Theorem X16_tuning_reports_after_full_budget mc mo ds (w0 : World) self w1 r w2 :
  ForecastingTrainingTask_init C mc mo ds w0 = (inr self, w1) ->
  truthy (tuning self) = true ->
  ForecastingTrainingTask_call C self w1 = (r, w2) ->
  rpc_log w2 = rpc_log w1 \/
  (exists tid losses,
      rpc_log w2 = rpc_log w1 ++ [(model_id self, FINISHED, tid)] /\
      length losses = 20%nat /\
      start_log w2 = start_log w1 ++ (inr <$> losses) /\
      stdout w2 = stdout w1 ++ zip (seqZ 0 20) losses).
Proof.
  intros Hinit Ht Hcall.
  apply init_tuning in Hinit
    as (Hmid & _ & _ & _ & Hst & Hcfg & _); [|done].
  rewrite <- Hcfg in Hmid.
  assert (Hbody : exists r' w',
             ForecastingTrainingTask_call_body C self w1 = (r', w') /\
             start_log w2 = start_log w' /\ stdout w2 = stdout w' /\
             rpc_log w2 = rpc_log w').
  { apply task_call_inv in Hcall as [(e & w' & Hb & -> & ->)|[Hb ->]];
      eauto 10. }
  destruct Hbody as (r' & w' & Hbody & -> & -> & ->).
  unfold ForecastingTrainingTask_call_body in Hbody. rewrite Ht in Hbody.
  exec_hyps;
    try match goal with
      | H : study_optimize _ _ _ = (inl _, _) |- _ =>
          apply study_optimize_any in H as (Hr & _); by left
      end;
    match goal with
    | H : study_optimize _ _ _ = (inr tt, _) |- _ =>
        pose proof (study_optimize_any _ _ _ _ _ H) as (Hr & _);
        eapply (study_optimize_ok _ _ _ _ _ (model_id self)) in H
          as (losses & cfgs & Hlen & Hout & Hsl & _);
          [| eassumption | eassumption]
    end;
    cbn [optuna.next_trial_id optuna.create_study] in *;
    change (Z.of_nat 20) with 20 in *;
    cbn [start_log stdout rpc_log set_ext set_rpc_log].
  all: first [ left; congruence
             | right; eexists _, losses; rewrite Hr; split_and!; done ].
Qed.

(** After a run of at least one evaluation that completes, the task
    configuration carries the identifier of the last evaluation. *)
Lemma study_optimize_last_trial self n : forall (w : World) w' st,
  study w = Some st ->
  study_optimize (objective self) (S n) w = (inr tt, w') ->
  task_configs w' !! "trial_id" =
    Some (VStr ("tid_" +:+ str (optuna.next_trial_id st + Z.of_nat n))) /\
  exists lr, task_configs w' !! "learning_rate" = Some (VFloat lr).
Proof.
  induction n as [|n IH]; intros w w' st Hst H;
    rewrite study_optimize_S in H; unfold study_ask, study_tell in H;
    exec_hyps;
    match goal with
    | H : TrainingTrialObjective_call _ _ _ _ = _ |- _ =>
        pose proof (objective_frame _ _ _ _ _ H) as (Hstudy & _);
        apply objective_ok in H as (lr & _ & _ & _ & _ & Hcfg & _)
    end;
    simpl in *; simplify_eq.
  - match goal with
    | H : study_optimize _ 0 _ = _ |- _ => rewrite study_optimize_0 in H
    end.
    exec_hyps. cbn [task_configs set_study]. rewrite Hcfg. split.
    + replace (optuna.next_trial_id st + Z.of_nat 0)
        with (optuna.next_trial_id st) by lia.
      by rewrite lookup_insert_eq.
    + exists lr. by rewrite lookup_insert_ne, lookup_insert_eq.
  - match goal with
    | H : study_optimize _ (S n) _ = _ |- _ =>
        eapply IH in H as [Htid Hlr]; [|reflexivity]
    end.
    split; [|exact Hlr]. rewrite Htid.
    cbn [optuna.next_trial_id optuna.tell].
    replace (optuna.next_trial_id st + Z.of_nat (S n))
      with (optuna.next_trial_id st + 1 + Z.of_nat n) by lia.
    reflexivity.
Qed.

(** X18. The task configuration is shared by all trials and written in
    place: after a tuning-mode invocation whose Search Driver run was
    not terminated early, it carries the trial identifier [tid_19] and a
    learning rate, those of the last evaluation, whichever trial was
    reported as the best. *)
Theorem X18_configuration_holds_last_trial
    mc mo ds (w0 : World) self w1 wx r w2 :
  ForecastingTrainingTask_init C mc mo ds w0 = (inr self, w1) ->
  truthy (tuning self) = true ->
  study_optimize
    (objective (TrainingTrialObjective_init (model_configs self) (dataset self)))
    20 w1 = (inr tt, wx) ->
  ForecastingTrainingTask_call C self w1 = (r, w2) ->
  task_configs w2 !! "trial_id" = Some (VStr "tid_19") /\
  exists lr, task_configs w2 !! "learning_rate" = Some (VFloat lr).
Proof.
  intros Hinit Ht Hopt Hcall.
  apply init_tuning in Hinit as (_ & _ & _ & _ & Hst & _); [|done].
  assert (Hcfg : task_configs w2 = task_configs wx).
  { assert (Hbody : exists r' w',
               ForecastingTrainingTask_call_body C self w1 = (r', w') /\
               task_configs w2 = task_configs w').
    { apply task_call_inv in Hcall as [(e & w' & Hb & -> & ->)|[Hb ->]];
        eauto 10. }
    destruct Hbody as (r' & w' & Hbody & ->).
    unfold ForecastingTrainingTask_call_body in Hbody. rewrite Ht in Hbody.
    exec_hyps;
      match goal with
      | H : study_optimize _ _ _ = _ |- _ => rewrite Hopt in H; simplify_eq
      end; done. }
  rewrite Hcfg.
  apply (study_optimize_last_trial _ 19 _ _ _ Hst) in Hopt as [Htid Hlr].
  split; [|exact Hlr]. rewrite Htid. reflexivity.
Qed.

End SchedulerProperties.

(** ** Specified property of UDFConfigurations *)

(** C10. On a configuration object that stores an output data type,
    [check] raises [UDFException], with the description "UDF
    output_data_type is not set.", exactly when the stored value is
    [None], and returns normally otherwise; either way the object is left
    as it was, and [get_output_data_type] then returns the stored
    value. *)
Theorem C10_check_raises_iff_unset {Type_ : Type}
    (self : UDFConfigurations.t Type_) (v : option Type_) :
  UDFConfigurations._output_data_type self = Some v ->
  ((UDFConfigurations.check self).1 =
     inl (UDFException "UDF output_data_type is not set.") <-> v = None) /\
  ((exists e, (UDFConfigurations.check self).1 = inl e) <-> v = None) /\
  ((UDFConfigurations.check self).1 = inr tt <-> v <> None) /\
  (UDFConfigurations.check self).2 = self /\
  UDFConfigurations.get_output_data_type (UDFConfigurations.check self).2 =
    (inr v, self).
Proof.
  intros Hv.
  unfold UDFConfigurations.check, UDFConfigurations.get_output_data_type,
    UDFConfigurations.self_output_data_type, bind, gets, ret, raise.
  rewrite Hv. destruct v as [t|]; simpl; rewrite ?Hv; simpl.
  - split_and!; try done.
    + split; [intros (e & He); done | done].
  - split_and!; try done.
    + split; [done | eauto].
Qed.

(** ** Further properties of UDFConfigurations *)

(** X15. [check] accepts exactly the configurations for which
    [get_output_data_type] returns a data type, and raises [UDFException]
    exactly for those for which it returns [None]; neither method changes
    the object. *)
Theorem X15_check_agrees_with_getter {Type_ : Type}
    (self : UDFConfigurations.t Type_) :
  ((UDFConfigurations.check self).1 = inr tt <->
   exists t, (UDFConfigurations.get_output_data_type self).1 = inr (Some t)) /\
  ((exists msg, (UDFConfigurations.check self).1 = inl (UDFException msg)) <->
   (UDFConfigurations.get_output_data_type self).1 = inr None) /\
  (UDFConfigurations.check self).2 = self /\
  (UDFConfigurations.get_output_data_type self).2 = self.
Proof.
  unfold UDFConfigurations.check, UDFConfigurations.get_output_data_type,
    UDFConfigurations.self_output_data_type, bind, gets, ret, raise.
  destruct (UDFConfigurations._output_data_type self) as [[t|]|]; simpl.
  - split_and!; try done.
    + split; [eauto | done].
    + split; [by intros [msg ?] | done].
  - split_and!; try done.
    + split; [done | by intros [t ?]].
    + split; [done | eauto].
  - split_and!; try done.
    + split; [done | by intros [t ?]].
    + split; [by intros [msg ?] | done].
Qed.

(** X17. The class only annotates [_output_data_type]; on an object on
    which the attribute was never assigned, [check] does not raise
    [UDFException]: both [check] and [get_output_data_type] raise
    [AttributeError] for the attribute, and leave the object as it is. *)
Theorem X17_unassigned_attribute {Type_ : Type}
    (self : UDFConfigurations.t Type_) :
  UDFConfigurations._output_data_type self = None ->
  UDFConfigurations.check self =
    (inl (AttributeError "_output_data_type"), self) /\
  UDFConfigurations.get_output_data_type self =
    (inl (AttributeError "_output_data_type"), self).
Proof.
  intros Hu.
  unfold UDFConfigurations.check, UDFConfigurations.get_output_data_type,
    UDFConfigurations.self_output_data_type, bind, gets, ret, raise.
  by rewrite Hu.
Qed.

(** ** The properties on concrete runs *)

Lemma run_eq {A B} (p : A * B) (a : A) : p.1 = a -> p = (a, p.2).
Proof. intros <-. by destruct p. Qed.

Section Runs.

Import Scenario.

Local Abbreviation W := (World (list (Exn + Qc))).

Ltac run := apply run_eq; vm_compute; reflexivity.

(** C1 on the scenario with the twenty losses of [losses], whose
    minimum 3/10 is first reached by trial 1: the coordinator is told
    [tid_1]. *)
Lemma C1_witness :
  let w0 : W := world true (inr <$> losses) in
  let w1 := constructed w0 in
  let w2 := invoked true w1 in
  rpc_log w2 = [(VStr "m1", FINISHED, "tid_1")] /\
  exists (b : nat) (lb : Qc),
    stdout w2 = zip (seqZ 0 20) losses /\
    rpc_log w2 = [(VStr "m1", FINISHED, "tid_" +:+ str (Z.of_nat b))] /\
    losses !! b = Some lb /\
    (forall j l, losses !! j = Some l -> (lb <= l)%Qc) /\
    (forall j l, (j < b)%nat -> losses !! j = Some l -> (lb < l)%Qc).
Proof.
  intros w0 w1 w2. subst w1 w2. unfold constructed, invoked.
  split; [vm_compute; reflexivity|].
  destruct (C1_tuning_reports_first_minimum collaborators tt tt tt
              w0 (task true) _ _ _ _ ltac:(run) eq_refl ltac:(run)
              (surjective_pairing _))
    as (ls & cfgs & b & lb & Hlen & Hsl & Hout & _ & _ & _ & _ & Hrpc
        & Hb & Hmin & Hfirst).
  assert (ls = losses) as ->.
  { apply (inj (fmap (@inr Exn Qc))). rewrite <- (app_nil_l (inr <$> ls)).
    etransitivity; [symmetry; exact Hsl|]. vm_compute. reflexivity. }
  exists b, lb. split_and!; done.
Defined.

(** C2 on a direct run whose executor returns the loss 1/2. *)
Lemma C2_witness :
  let w0 : W := world false [inr (q 1 2)] in
  let w1 := constructed w0 in
  let w2 := invoked false w1 in
  exists inner,
    task_configs w0 !! "model_id" = Some (VStr "m1") /\
    task_trial_map w0 !! VStr "m1" = Some inner /\
    task_trial_map w2 =
      <[VStr "m1" := <[VStr "tid_0" := pid]> inner]> (task_trial_map w0) /\
    registry w2 (VStr "m1") (VStr "tid_0") = Some pid /\
    (forall m k, (m, k) <> (VStr "m1", VStr "tid_0") ->
                 registry w2 m k = registry w0 m k) /\
    rpc_log w2 = rpc_log w0 ++ [(VStr "m1", FINISHED, "tid_0")].
Proof.
  intros w0 w1 w2. subst w1 w2. unfold constructed, invoked.
  exact (C2_direct_run collaborators tt tt tt w0 (task false) _ _
           ltac:(run) eq_refl ltac:(run)).
Defined.

(** C3 at a concrete input: the Trial Objective invoked twice, with
    trial-state handles carrying the sequence numbers 0 and 1, both
    evaluations succeeding.  The two registry entries it writes are
    keyed by the integers 0 and 1; no entry is keyed ["tid_0"] or
    ["tid_1"]. *)
Theorem C3_registry_keyed_by_sequence_number :
  let w0 : W := world true [inr (q 1 2); inr (q 3 10)] in
  let self := TrainingTrialObjective_init tt tt in
  let r1 := TrainingTrialObjective_call collaborators self
              {| optuna._trial_id := 0 |} w0 in
  let r2 := TrainingTrialObjective_call collaborators self
              {| optuna._trial_id := 1 |} r1.2 in
  r1.1 = inr (q 1 2) /\ r2.1 = inr (q 3 10) /\
  size <$> (task_trial_map r2.2 !! VStr "m1") = Some 2%nat /\
  registry r2.2 (VStr "m1") (VStr "tid_0") = None /\
  registry r2.2 (VStr "m1") (VStr "tid_1") = None /\
  registry r2.2 (VStr "m1") (VInt 0) = Some pid /\
  registry r2.2 (VStr "m1") (VInt 1) = Some pid /\
  task_configs r1.2 !! "trial_id" = Some (VStr "tid_0") /\
  task_configs r2.2 !! "trial_id" = Some (VStr "tid_1").
Proof. intros w0 self r1 r2. split_and!; vm_compute; reflexivity. Qed.

(** C4 on a tuning run whose second executor raises in [start]. *)
Lemma C4_witness :
  let w : W := constructed (world true [inr (q 1 2); inl boom]) in
  let r := (ForecastingTrainingTask_call collaborators (task true) w).1 in
  let w' := invoked true w in
  start_log w' = start_log w ++ [inr (q 1 2); inl boom] /\
  r = inl boom /\ rpc_log w' = rpc_log w /\
  warn_log w' = warn_log w ++ [boom].
Proof.
  intros w r w'. subst r w'. unfold invoked.
  assert (Hsl : start_log
                  (ForecastingTrainingTask_call collaborators (task true) w).2 =
                start_log w ++ [inr (q 1 2); inl boom])
    by (vm_compute; reflexivity).
  split; [exact Hsl|].
  apply (C4_start_error_propagates collaborators (task true) w _ _
           [inr (q 1 2); inl boom] boom (surjective_pairing _) Hsl).
  apply list_elem_of_In. simpl. auto.
Defined.

(** C5 on a direct run whose executor raises in [start]. *)
Lemma C5_witness :
  let w : W := constructed (world false [inl boom]) in
  let r := (ForecastingTrainingTask_call collaborators (task false) w).1 in
  let w' := invoked false w in
  r = inl boom /\
  exists w1,
    ForecastingTrainingTask_call_body collaborators (task false) w =
      (inl boom, w1) /\
    w' = set_warn_log (fun l => l ++ [boom]) w1 /\
    warn_log w' = warn_log w ++ [boom].
Proof.
  intros w r w'. subst r w'. unfold invoked.
  assert (Hr : (ForecastingTrainingTask_call collaborators (task false) w).1 =
               inl boom) by (vm_compute; reflexivity).
  split; [exact Hr|].
  pose proof (C5_log_once_and_reraise collaborators (task false) w _ _
                (surjective_pairing _)) as [H _].
  rewrite Hr in H. exact H.
Defined.

(** C6 with invocation in place of construction fails: on a direct-mode
    task, with a registry prepared for its model, the construction alone,
    before any invocation, has already assigned [trial_id] in the task
    configuration and written the registry entry. *)
Lemma C6_counterexample :
  let w0 : W := world false [inr (q 1 2)] in
  let r := ForecastingTrainingTask_init collaborators tt tt tt w0 in
  r.1 = inr (task false) /\
  truthy (tuning (task false)) = false /\
  task_configs w0 !! "trial_id" = None /\
  task_configs r.2 !! "trial_id" = Some (VStr "tid_0") /\
  registry w0 (VStr "m1") (VStr "tid_0") = None /\
  registry r.2 (VStr "m1") (VStr "tid_0") = Some pid /\
  ~ (task_configs r.2 = task_configs w0 /\
     task_trial_map r.2 = task_trial_map w0).
Proof.
  intros w0 r. split_and!; [vm_compute; reflexivity .. |].
  intros [H _]. apply (f_equal (.!! "trial_id")) in H.
  vm_compute in H. discriminate H.
Qed.

(** C6 on the same task. *)
Lemma C6_witness :
  let w0 : W := world false [inr (q 1 2)] in
  let w1 := constructed w0 in
  task_configs w1 = <["trial_id" := VStr "tid_0"]> (task_configs w0) /\
  registry w1 (VStr "m1") (VStr "tid_0") = Some pid /\
  forall (w : W) r w',
    ForecastingTrainingTask_call collaborators (task false) w = (r, w') ->
    task_configs w' = task_configs w /\ task_trial_map w' = task_trial_map w.
Proof.
  intros w0 w1. subst w1. unfold constructed.
  exact (C6_constructor_registers collaborators tt tt tt w0 (task false) _
           ltac:(run) eq_refl).
Defined.

(** C7 on a tuning run: the one call made carries [FINISHED]. *)
Lemma C7_witness :
  let w : W := constructed (world true (inr <$> losses)) in
  exists calls,
    rpc_log (ForecastingTrainingTask_call collaborators (task true) w).2 =
      rpc_log w ++ calls /\
    forall m st tid, (m, st, tid) ∈ calls -> st = FINISHED.
Proof.
  intros w. exact (proj2 (C7_only_FINISHED_reported collaborators) _ w).
Defined.

Lemma scenario_sampling_in_bounds : sampling_in_bounds collaborators.
Proof.
  intros trial name low high log e v e'. simpl.
  case_bool_decide as Hle; intros [= <- <-].
  split; [apply Qcle_refl | exact Hle].
Defined.

(** C8 on the first evaluation of a tuning run. *)
Lemma C8_witness :
  let w : W := constructed (world true (inr <$> losses)) in
  let w' := (TrainingTrialObjective_call collaborators
               (TrainingTrialObjective_init tt tt)
               {| optuna._trial_id := 0 |} w).2 in
  exists lr,
    task_configs w' !! "learning_rate" = Some (VFloat lr) /\
    (lr_low <= lr <= lr_high)%Qc.
Proof.
  intros w w'. subst w'.
  destruct (C8_learning_rate_in_range collaborators
              (TrainingTrialObjective_init tt tt)
              {| optuna._trial_id := 0 |} w _ _
              scenario_sampling_in_bounds (surjective_pairing _))
    as [(e & x & Hs & _)|(lr & x & _ & Hlr & Hrange & _)].
  - vm_compute in Hs. discriminate Hs.
  - exists lr. split; assumption.
Defined.

(** C9 on the scenario of C1: all twenty entries hold the process
    identifier. *)
Lemma C9_witness :
  let w0 : W := world true (inr <$> losses) in
  let w1 := constructed w0 in
  let w2 := invoked true w1 in
  (forall m k p, registry w2 m k = Some p ->
                 p = pid \/ registry w0 m k = Some p) /\
  forall k, 0 <= k < 20 -> registry w2 (VStr "m1") (VInt k) = Some pid.
Proof.
  intros w0 w1 w2. subst w1 w2. unfold constructed, invoked.
  destruct (C9_tuning_run_single_pid collaborators tt tt tt w0 (task true)
              _ (inr tt) _ ltac:(run) eq_refl ltac:(run)) as [Hany Hall].
  split; [exact Hany | exact (Hall eq_refl)].
Defined.

(** C10 on a configuration whose output data type is set, the data
    types being numbered. *)
Lemma C10_witness :
  let self : UDFConfigurations.t Z :=
    {| UDFConfigurations._output_data_type := Some (Some 1) |} in
  (UDFConfigurations.check self).1 = inr tt /\
  (UDFConfigurations.check self).2 = self /\
  UDFConfigurations.get_output_data_type (UDFConfigurations.check self).2 =
    (inr (Some 1), self).
Proof.
  intros self.
  destruct (C10_check_raises_iff_unset self (Some 1) eq_refl)
    as (_ & _ & Hok & Hsame & Hget).
  split_and!; [|exact Hsame|exact Hget].
  apply Hok. discriminate.
Defined.


(** X1 on a task configuration that has [model_id] but lacks [tuning]. *)
Lemma X1_witness :
  ForecastingTrainingTask_init collaborators tt tt tt world_untuned =
    (inl (KeyError (VStr "tuning")), world_untuned).
Proof.
  exact (X1_constructor_missing_key collaborators tt tt tt world_untuned
           (or_intror eq_refl)).
Defined.

Lemma steady_never_raise : never_raise steady.
Proof. unfold never_raise. split_and!; intros; simpl; unfold ret; eauto. Defined.

(** X2 on a tuning-mode task whose registry has no dictionary for the
    model. *)
Lemma X2_witness :
  let w0 : W := world_unregistered true [] in
  let w1 := (ForecastingTrainingTask_init steady tt tt tt w0).2 in
  let '(r, w2) := ForecastingTrainingTask_call steady (task true) w1 in
  r = inl (KeyError (VStr "m1")) /\
  rpc_log w2 = rpc_log w0 /\ trial_log w2 = trial_log w0 /\
  start_log w2 = start_log w0 /\
  warn_log w2 = warn_log w0 ++ [KeyError (VStr "m1")] /\
  task_trial_map w2 = task_trial_map w0 /\
  task_configs w2 !! "trial_id" = Some (VStr "tid_0").
Proof.
  intros w0 w1. subst w1.
  apply (X2_tuning_without_registry_entry steady tt tt tt w0 (task true)).
  - exact steady_never_raise.
  - run.
  - reflexivity.
  - reflexivity.
Defined.

(** X3 on a direct-mode construction that fails for want of a registry
    dictionary: the trial identifier stays assigned. *)
Lemma X3_witness :
  let w : W := world_unregistered false [] in
  let w' := (ForecastingTrainingTask_init collaborators tt tt tt w).2 in
  task_trial_map w' = task_trial_map w /\ study w' = study w /\
  rpc_log w' = rpc_log w /\ warn_log w' = warn_log w /\
  start_log w' = start_log w /\
  (task_configs w' = task_configs w \/
   task_configs w' = <["trial_id" := VStr "tid_0"]> (task_configs w)).
Proof.
  intros w w'. subst w'.
  apply (X3_failed_construction collaborators tt tt tt w (KeyError (VStr "m1"))).
  run.
Defined.

(** X4 on the same construction. *)
Lemma X4_witness :
  let w : W := world_unregistered false [] in
  let '(r, w') := ForecastingTrainingTask_init collaborators tt tt tt w in
  r = inl (KeyError (VStr "m1")) /\
  task_configs w' = <["trial_id" := VStr "tid_0"]> (task_configs w) /\
  trial_log w' = trial_log w ++ [task_configs w'] /\
  task_trial_map w' = task_trial_map w.
Proof.
  intros w.
  apply (X4_direct_construction_without_registry_entry collaborators
           tt tt tt w (VStr "m1") (VBool false) tt [] tt []);
    vm_compute; reflexivity.
Defined.

(** X5 on the first evaluation of a tuning run: the executor ran, on a
    registered trial. *)
Lemma X5_witness :
  let w : W := constructed (world true [inr (q 1 2)]) in
  let rw := TrainingTrialObjective_call collaborators
              (TrainingTrialObjective_init tt tt)
              {| optuna._trial_id := 0 |} w in
  registry rw.2 (VStr "m1") (VInt 0) = Some pid /\
  start_log rw.2 = start_log w ++ [rw.1].
Proof.
  intros w rw. subst rw.
  destruct (X5_registered_before_executor collaborators
              (TrainingTrialObjective_init tt tt)
              {| optuna._trial_id := 0 |} w _ _ (surjective_pairing _))
    as [(_ & _ & e & He)|(mid & Hmid & Hreg & _ & _ & [[_ [e He]]|Hs])].
  - vm_compute in He. discriminate He.
  - vm_compute in He. discriminate He.
  - split; [|exact Hs].
    assert (mid = VStr "m1") as <-; [|exact Hreg].
    vm_compute in Hmid. by injection Hmid.
Defined.


(** X7 on an evaluation in a world whose registry has no dictionary for
    the model. *)
Lemma X7_witness :
  let w : W := world_unregistered true [inr (q 1 2)] in
  let '(r, w') := TrainingTrialObjective_call collaborators
                    (TrainingTrialObjective_init tt tt)
                    {| optuna._trial_id := 0 |} w in
  r = inl (KeyError (VStr "m1")) /\
  task_configs w' =
    <["trial_id" := VStr ("tid_" +:+ str 0)]>
      (<["learning_rate" := VFloat lr_low]> (task_configs w)) /\
  task_trial_map w' = task_trial_map w /\
  trial_log w' = trial_log w /\ start_log w' = start_log w.
Proof.
  intros w.
  apply (X7_evaluation_without_registry_entry collaborators
           (TrainingTrialObjective_init tt tt) {| optuna._trial_id := 0 |}
           w lr_low [inr (q 1 2)] tt tt [inr (q 1 2)] (VStr "m1"));
    vm_compute; reflexivity.
Defined.

(** X8 on the first two evaluations of a tuning run. *)
Lemma X8_witness :
  let w : W := constructed (world true [inr (q 1 2); inr (q 3 10)]) in
  let self := TrainingTrialObjective_init tt tt in
  let w1 := (TrainingTrialObjective_call collaborators self
               {| optuna._trial_id := 0 |} w).2 in
  let w2 := (TrainingTrialObjective_call collaborators self
               {| optuna._trial_id := 1 |} w1).2 in
  task_configs w2 !! "trial_id" = Some (VStr "tid_1") /\
  stdout w2 = stdout w ++ [(0, q 1 2); (1, q 3 10)] /\
  exists mid,
    registry w2 mid (VInt 0) = Some pid /\
    registry w2 mid (VInt 1) = Some pid.
Proof.
  intros w self w1 w2. subst w1 w2.
  destruct (X8_two_evaluations collaborators self
              {| optuna._trial_id := 0 |} {| optuna._trial_id := 1 |}
              w (q 1 2) _ (q 3 10) _ ltac:(run) ltac:(run))
    as (lr2 & mid & c1 & c2 & Hcfg & _ & Hr1 & Hr2 & _ & _ & _ & _ & Hout).
  split_and!.
  - rewrite Hcfg. by rewrite lookup_insert_eq.
  - exact Hout.
  - exists mid. by split.
Defined.

(** X9 on a direct-mode orchestrator invoked twice. *)
Lemma X9_witness :
  let w : W := constructed (world false [inr (q 1 2); inr (q 3 10)]) in
  let w1 := invoked false w in
  let w2 := invoked false w1 in
  rpc_log w2 =
    rpc_log w ++ [(VStr "m1", FINISHED, "tid_0"); (VStr "m1", FINISHED, "tid_0")] /\
  (exists l1 l2, start_log w2 = start_log w ++ [inr l1; inr l2]) /\
  warn_log w2 = warn_log w /\
  task_configs w2 = task_configs w /\ task_trial_map w2 = task_trial_map w.
Proof.
  intros w w1 w2. subst w1 w2. unfold invoked.
  exact (X9_direct_invocation_twice collaborators (task false) w _ _ tt "tid_0"
           eq_refl eq_refl eq_refl ltac:(run) ltac:(run)).
Defined.

(** X10 on a direct-mode invocation whose executor raises. *)
Lemma X10_witness :
  let w : W := constructed (world false [inl boom]) in
  let r := (ForecastingTrainingTask_call collaborators (task false) w).1 in
  let w' := invoked false w in
  start_log w' = start_log w ++ [inl boom] /\
  r = inl boom /\ rpc_log w' = rpc_log w /\
  warn_log w' = warn_log w ++ [boom].
Proof.
  intros w r w'. subst r w'. unfold invoked.
  destruct (X10_direct_invocation collaborators (task false) w _ _ tt "tid_0"
              eq_refl eq_refl eq_refl (surjective_pairing _))
    as (o & e1 & Hs & Hsl & _ & _ & _ & Ho).
  vm_compute in Hs. injection Hs as <- _. by split.
Defined.

(** X11 on a tuning run: [model_id] is what it was. *)
Lemma X11_witness :
  let w : W := constructed (world true (inr <$> losses)) in
  task_configs (ForecastingTrainingTask_call collaborators (task true) w).2
    !! "model_id" = task_configs w !! "model_id".
Proof.
  intros w.
  apply (proj2 (X11_configuration_frame collaborators)); discriminate.
Defined.

(** X12 on a tuning run. *)
Lemma X12_witness :
  let w : W := constructed (world true (inr <$> losses)) in
  registry_extends w
    (ForecastingTrainingTask_call collaborators (task true) w).2.
Proof.
  intros w. apply (proj2 (X12_registry_only_grows collaborators)).
Defined.

(** X13 on a tuning run with collaborators that never raise. *)
Lemma X13_witness :
  let w0 : W := world true [] in
  let w1 := (ForecastingTrainingTask_init steady tt tt tt w0).2 in
  exists w2, ForecastingTrainingTask_call steady (task true) w1 = (inr tt, w2).
Proof.
  intros w0 w1. subst w1.
  apply (X13_invocation_completes steady tt tt tt w0 (task true)).
  - exact steady_never_raise.
  - run.
  - intros _. vm_compute. eauto.
Defined.


(** X15 on a configuration whose output data type is set. *)
Lemma X15_witness :
  let self : UDFConfigurations.t Z :=
    {| UDFConfigurations._output_data_type := Some (Some 1) |} in
  (UDFConfigurations.check self).1 = inr tt.
Proof.
  intros self.
  apply (proj1 (X15_check_agrees_with_getter self)). by exists 1.
Defined.

(** X16 on a tuning run stopped by its second executor: no report. *)
Lemma X16_witness :
  let w0 : W := world true [inr (q 1 2); inl boom] in
  let w1 := constructed w0 in
  let w2 := invoked true w1 in
  rpc_log w2 = rpc_log w1.
Proof.
  intros w0 w1 w2. subst w1 w2. unfold constructed, invoked.
  destruct (X16_tuning_reports_after_full_budget collaborators tt tt tt
              w0 (task true) _ _ _ ltac:(run) eq_refl (surjective_pairing _))
    as [H|(tid & ls & _ & Hlen & Hsl & _)]; [exact H|].
  exfalso.
  apply (f_equal length) in Hsl.
  rewrite length_app, length_fmap, Hlen in Hsl.
  vm_compute in Hsl. discriminate Hsl.
Defined.

(** X17 on an object whose attribute was never assigned. *)
Lemma X17_witness :
  let self : UDFConfigurations.t Z :=
    {| UDFConfigurations._output_data_type := None |} in
  UDFConfigurations.check self =
    (inl (AttributeError "_output_data_type"), self) /\
  UDFConfigurations.get_output_data_type self =
    (inl (AttributeError "_output_data_type"), self).
Proof.
  intros self. exact (X17_unassigned_attribute self eq_refl).
Defined.

(** X18 on the scenario of C1: trial 1 is reported, the configuration
    carries trial 19. *)
Lemma X18_witness :
  let w0 : W := world true (inr <$> losses) in
  let w1 := constructed w0 in
  let w2 := invoked true w1 in
  rpc_log w2 = [(VStr "m1", FINISHED, "tid_1")] /\
  task_configs w2 !! "trial_id" = Some (VStr "tid_19").
Proof.
  intros w0 w1 w2. subst w1 w2. unfold constructed, invoked.
  split; [vm_compute; reflexivity|].
  exact (proj1 (X18_configuration_holds_last_trial collaborators tt tt tt
                  w0 (task true) _ _ _ _ ltac:(run) eq_refl ltac:(run)
                  (surjective_pairing _))).
Defined.
End Runs.
